(** * The build-and-signal bridge of the Beam taxi consumer stack

    A shallow embedding of the orchestration part of the stack:

    - [NotifyLambda]: the inline Python handler of the resource
      [BeamTaxiConsumerBuildPipelineNotifyLambdaEB7E94E5] of
      [cdk.out/BeamTaxiCount-Build.template.json];
    - [Template]: the pipeline, wait condition, webhook and Lambda resources
      of the same template, as CloudFormation data;
    - [Stack]: the parameters and the construct call of [lib/cdk-stack.ts];
    - [Orchestrator], [Gate], [Intake]: the stage runner, the wait condition
      and the webhook dispatch.  Their engines are services of the hosting
      platform and are not part of the repository; they are modelled from the
      specification and are marked as such. *)

From Stdlib Require Import String Ascii List ZArith Lia Bool.
From stdpp Require Import base option strings gmap list.
Import ListNotations.

Local Open Scope string_scope.
Local Open Scope list_scope.

(** ** Python values and exceptions *)

#[local] Set Warnings "-register-all".

(** The values that [json] and the Lambda runtime hand to Python code.  A
    [dict] is kept as an association list in insertion order. *)
Inductive value : Type :=
| VNone
| VBool (b : bool)
| VInt (z : Z)
| VStr (s : string)
| VList (l : list value)
| VDict (d : list (string * value)).

(** Exceptions, all of them subclasses of Python's [Exception]. *)
Inductive exn : Type :=
| KeyError (key : string)
| TypeError (msg : string)
| OtherError (cls msg : string).

(** [str(e)].  A [KeyError] prints the [repr] of its key. *)
Definition str (e : exn) : string :=
  match e with
  | KeyError k => "'" ++ k ++ "'"
  | TypeError m => m
  | OtherError _ m => m
  end.

Fixpoint assoc {A : Type} (k : string) (d : list (string * A)) : option A :=
  match d with
  | [] => None
  | (k', v) :: d' => if String.eqb k k' then Some v else assoc k d'
  end.

(** ** The Notifier Bridge: the inline Lambda handler *)

Module NotifyLambda.

(** [urllib.request.Request(url, headers=.., data=.., method=..)].  The
    field [data] holds the dictionary whose [json.dumps] image, encoded as
    UTF-8, is the body on the wire. *)
Record Request : Type := mkRequest {
  full_url : string;
  headers : list (string * string);
  data : value;
  method : string
}.

(** [failureDetails] of [put_job_failure_result]. *)
Record FailureDetails : Type := mkFailureDetails {
  message : string;
  type : string
}.

(** The calls the handler makes to the outside. *)
Inductive call : Type :=
| UrlOpen (req : Request)
| PutJobSuccessResult (jobId : value)
| PutJobFailureResult (jobId : value) (failureDetails : FailureDetails)
| Print (line : string).

(** One entry of a trace: a call and how it ended ([None]: it returned,
    [Some e]: it raised [e]). *)
Definition entry : Type := call * option exn.

(** The answers of the outside world.  [urlopen] returns normally exactly
    for a 2xx response; every other response and every transport error is
    raised as an exception. *)
Record Network : Type := mkNetwork {
  urlopen : Request -> option exn;
  put_job_success_result : value -> option exn;
  put_job_failure_result : value -> FailureDetails -> option exn
}.

(** Computations: the trace so far and either a raised exception or a
    returned value. *)
Definition M (A : Type) : Type := list entry * (exn + A).

Definition ret {A} (a : A) : M A := ([], inr a).
Definition raise {A} (e : exn) : M A := ([], inl e).

Definition bind {A B} (m : M A) (f : A -> M B) : M B :=
  match m with
  | (t, inl e) => (t, inl e)
  | (t, inr a) => let '(t', r) := f a in (t ++ t', r)
  end.

(** [try: body  except Exception as e: handler e]. *)
Definition try_except {A} (body : M A) (handler : exn -> M A) : M A :=
  match body with
  | (t, inl e) => let '(t', r) := handler e in (t ++ t', r)
  | (t, inr a) => (t, inr a)
  end.

Definition perform (c : call) (outcome : option exn) : M unit :=
  ([(c, outcome)],
   match outcome with
   | None => inr tt
   | Some e => inl e
   end).

#[export] Instance M_ret : MRet M := @ret.
#[export] Instance M_bind : MBind M := fun A B f m => bind m f.

(** [obj[key]] for a string key. *)
Definition subscript (obj : value) (key : string) : M value :=
  match obj with
  | VDict d =>
      match assoc key d with
      | Some v => ret v
      | None => raise (KeyError key)
      end
  | VList _ => raise (TypeError "list indices must be integers or slices, not str")
  | VStr _ => raise (TypeError "string indices must be integers")
  | _ => raise (TypeError "object is not subscriptable")
  end.

(** [os.environ[key]]. *)
Definition environ_get (environ : gmap string string) (key : string) : M string :=
  match environ !! key with
  | Some v => ret v
  | None => raise (KeyError key)
  end.

Definition print (line : string) : M unit := perform (Print line) None.

(** The dictionary [data] of the handler. *)
Definition signal_data (job_id : value) : value :=
  VDict [ ("Status", VStr "SUCCESS");
          ("Reason", VStr "Compilation Succeeded");
          ("UniqueId", job_id);
          ("Data", VStr "Compilation Succeeded") ].

(** [handler(event, context)]. *)
Definition handler (net : Network) (environ : gmap string string)
    (event context : value) : M unit :=
  job ← subscript event "CodePipeline.job";
  job_id ← subscript job "id";
  url ← environ_get environ "waitHandleUrl";
  let headers := [("Content-Type", "")] in
  let data := signal_data job_id in
  try_except
    (let req := mkRequest url headers data "PUT" in
     perform (UrlOpen req) (urlopen net req);;
     perform (PutJobSuccessResult job_id) (put_job_success_result net job_id))
    (fun e =>
       print ("failure: " ++ str e);;
       let details := mkFailureDetails (str e) "JobFailed" in
       perform (PutJobFailureResult job_id details)
               (put_job_failure_result net job_id details)).

(** *** Reading a trace *)

Definition trace_of {A} (m : M A) : list entry := fst m.
Definition result_of {A} (m : M A) : exn + A := snd m.

Definition returns_normally {A} (m : M A) : Prop :=
  exists a, result_of m = inr a.

(** The outbound calls: everything but the log lines. *)
Definition is_outbound (c : call) : bool :=
  match c with
  | Print _ => false
  | _ => true
  end.

Definition outbound (t : list entry) : list call :=
  List.filter is_outbound (map fst t).

Definition is_report (c : call) : bool :=
  match c with
  | PutJobSuccessResult _ | PutJobFailureResult _ _ => true
  | _ => false
  end.

(** The requests sent to the gate, in order. *)
Fixpoint signals (t : list entry) : list Request :=
  match t with
  | [] => []
  | (UrlOpen req, _) :: t' => req :: signals t'
  | _ :: t' => signals t'
  end.

(** The job reports sent to the Orchestrator, in order. *)
Definition reports (t : list entry) : list call :=
  List.filter is_report (map fst t).

Definition is_success_report (c : call) : bool :=
  match c with
  | PutJobSuccessResult _ => true
  | _ => false
  end.

(** The job id a CodePipeline event carries, when it carries one. *)
Definition job_id_of (event : value) : option value :=
  match event with
  | VDict d =>
      match assoc "CodePipeline.job" d with
      | Some (VDict j) => assoc "id" j
      | _ => None
      end
  | _ => None
  end.

(** The request the handler builds for a job id and a handle URL. *)
Definition signal_request (url : string) (job_id : value) : Request :=
  mkRequest url [("Content-Type", "")] (signal_data job_id) "PUT".

Definition failure_details (e : exn) : FailureDetails :=
  mkFailureDetails (str e) "JobFailed".

(** The [except] branch, run for the exception [e]. *)
Definition except_branch (net : Network) (job_id : value) (e : exn) : M unit :=
  ([ (Print ("failure: " ++ str e), None);
     (PutJobFailureResult job_id (failure_details e),
      put_job_failure_result net job_id (failure_details e)) ],
   match put_job_failure_result net job_id (failure_details e) with
   | None => inr tt
   | Some e' => inl e'
   end).

(** The job report as the outcome of the signal alone decides it: the
    success report, and nothing else, after a delivered signal; the failure
    report with the captured error, and nothing else, after a failed one. *)
Definition report_follows_signal
    (net : Network) (environ : gmap string string) (event context : value)
    (job_id : value) (url : string) : Prop :=
  let t := trace_of (handler net environ event context) in
  match urlopen net (signal_request url job_id) with
  | None => reports t = [PutJobSuccessResult job_id]
  | Some e => reports t = [PutJobFailureResult job_id (failure_details e)]
  end.

(** The contract "one signal attempt, then one job report, and a normal
    return", for one invocation. *)
Definition bridge_contract
    (net : Network) (environ : gmap string string) (event context : value) : Prop :=
  let m := handler net environ event context in
  (exists req rep,
      outbound (trace_of m) = [UrlOpen req; rep] /\ is_report rep = true)
  /\ returns_normally m.

End NotifyLambda.

(** *** Sample invocations *)

Module Samples.
Import NotifyLambda.

Definition event42 : value :=
  VDict [ ("CodePipeline.job",
           VDict [ ("id", VStr "job-42"); ("accountId", VStr "123456789012") ]) ].

Definition environ0 : gmap string string :=
  {[ "waitHandleUrl" := "https://cloudformation-waitcondition.example/handle" ]}.

Definition url_error : exn := OtherError "URLError" "<urlopen error timed out>".
Definition client_error : exn :=
  OtherError "EndpointConnectionError" "Could not connect to the endpoint URL".

(** Everything answers. *)
Definition net_ok : Network :=
  mkNetwork (fun _ => None) (fun _ => None) (fun _ _ => None).

(** The gate cannot be reached, the Orchestrator can. *)
Definition net_gate_down : Network :=
  mkNetwork (fun _ => Some url_error) (fun _ => None) (fun _ _ => None).

(** The gate answers, the Orchestrator cannot be reached. *)
Definition net_orchestrator_down : Network :=
  mkNetwork (fun _ => None) (fun _ => Some client_error) (fun _ _ => Some client_error).

(** The success report fails, the failure report gets through. *)
Definition net_success_report_lost : Network :=
  mkNetwork (fun _ => None) (fun _ => Some client_error) (fun _ _ => None).

End Samples.


(** ** The synthesized template, [cdk.out/BeamTaxiCount-Build.template.json]

    The resources the orchestration is made of, as CloudFormation data.  Role
    and policy resources carry no behaviour and are left out. *)

Module Template.

(** A property value: a literal or a reference to a parameter or resource. *)
Inductive cfn : Type :=
| Str (s : string)
| Flag (b : bool)
| Ref (logicalId : string).

(** [Ref] looked up in the values a deployment gives to parameters and
    resources. *)
Definition resolve (refs : gmap string string) (v : cfn) : option string :=
  match v with
  | Str s => Some s
  | Flag true => Some "true"
  | Flag false => Some "false"
  | Ref id => refs !! id
  end.

(** *** Parameters *)

Record ParameterProperties : Type := mkParameter {
  ParameterType : string;
  Description : option string;
  NoEcho : bool;
  Default : option string
}.

Definition TemplateParameters : list (string * ParameterProperties) :=
  [ ("KeyName", mkParameter "AWS::EC2::KeyPair::KeyName" None false None);
    ("GithubOauthToken",
     mkParameter "String"
       (Some "Create a token with 'repo' and 'admin:repo_hook' permissions here https://github.com/settings/tokens")
       true None) ].

(** *** The build project *)

(** The [BuildSpec] of [BeamTaxiConsumerBuildPipelineMyProjectA087020D],
    parsed. *)
Record BuildSpec : Type := mkBuildSpec {
  version : string;
  build_commands : list string;
  artifact_files : list string;
  discard : bool
}.

Definition MyProject_BuildSpec : BuildSpec :=
  mkBuildSpec "0.2" ["mvn clean package -B"] ["target/beam-taxi-count-*.jar"] true.

(** *** The wait condition and its handle *)

Definition WaitHandle : string := "BeamTaxiConsumerBuildPipelineWaitHandle410EECC2".

Record WaitConditionProperties : Type := mkWaitCondition {
  Count : nat;
  Handle : cfn;
  Timeout : string
}.

Definition WaitCondition : WaitConditionProperties :=
  mkWaitCondition 1 (Ref WaitHandle) "300".

(** *** The Lambda function *)

Definition NotifyLambdaId : string :=
  "BeamTaxiConsumerBuildPipelineNotifyLambdaEB7E94E5".

Record FunctionProperties : Type := mkFunction {
  Handler : string;
  Runtime : string;
  Variables : list (string * cfn);
  FunctionTimeout : nat
}.

Definition NotifyLambdaFunction : FunctionProperties :=
  mkFunction "index.handler" "python3.7" [("waitHandleUrl", Ref WaitHandle)] 10.

(** *** The pipeline *)

Record ActionTypeId : Type := mkActionTypeId {
  Category : string;
  Owner : string;
  Provider : string;
  Version : string
}.

Record Action : Type := mkAction {
  ActionType : ActionTypeId;
  Configuration : list (string * cfn);
  InputArtifacts : list string;
  Name : string;
  OutputArtifacts : list string;
  RunOrder : nat
}.

Record Stage : Type := mkStage {
  Actions : list Action;
  StageName : string
}.

Definition SourceAction : Action :=
  mkAction (mkActionTypeId "Source" "ThirdParty" "GitHub" "1")
    [ ("Owner", Str "aws-samples");
      ("Repo", Str "amazon-kinesis-analytics-beam-taxi-consumer");
      ("Branch", Str "master");
      ("OAuthToken", Ref "GithubOauthToken");
      ("PollForSourceChanges", Flag false) ]
    [] "SourceAction" ["Artifact_Source_SourceAction"] 1.

Definition BuildAction : Action :=
  mkAction (mkActionTypeId "Build" "AWS" "CodeBuild" "1")
    [ ("ProjectName", Ref "BeamTaxiConsumerBuildPipelineMyProjectA087020D") ]
    ["Artifact_Source_SourceAction"] "BuildAction" ["Artifact_Build_BuildAction"] 1.

Definition CopyAction : Action :=
  mkAction (mkActionTypeId "Deploy" "AWS" "S3" "1")
    [ ("BucketName", Ref "Bucket83908E77"); ("Extract", Str "true") ]
    ["Artifact_Build_BuildAction"] "CopyAction" [] 1.

Definition InvokeAction : Action :=
  mkAction (mkActionTypeId "Invoke" "AWS" "Lambda" "1")
    [ ("FunctionName", Ref NotifyLambdaId) ]
    [] "InvokeAction" [] 2.

Definition Stages : list Stage :=
  [ mkStage [SourceAction] "Source";
    mkStage [BuildAction] "Build";
    mkStage [CopyAction; InvokeAction] "Copy" ].

(** *** The webhook *)

Record Filter : Type := mkFilter {
  JsonPath : string;
  MatchEquals : string
}.

Record WebhookProperties : Type := mkWebhook {
  Authentication : string;
  SecretToken : cfn;
  Filters : list Filter;
  TargetAction : string;
  TargetPipelineVersion : nat;
  RegisterWithThirdParty : bool
}.

Definition Webhook : WebhookProperties :=
  mkWebhook "GITHUB_HMAC" (Ref "GithubOauthToken")
    [ mkFilter "$.ref" "refs/heads/{Branch}" ]
    "SourceAction" 1 true.

(** The action of the pipeline with a given name. *)
Definition find_action (stages : list Stage) (name : string) : option Action :=
  List.find (fun a => String.eqb (Name a) name) (concat (map Actions stages)).

End Template.

(** ** The stack, [lib/cdk-stack.ts] *)

Module Stack.

(** [new CfnParameter(this, id, {type, default, noEcho, description})]. *)
Record CfnParameter : Type := mkCfnParameter {
  id : string;
  type : string;
  default : option string;
  noEcho : bool;
  description : option string
}.

Definition KeyName : CfnParameter :=
  mkCfnParameter "KeyName" "AWS::EC2::KeyPair::KeyName" None false None.

Definition GithubOauthToken : CfnParameter :=
  mkCfnParameter "GithubOauthToken" "String" None true
    (Some "Create a token with 'repo' and 'admin:repo_hook' permissions here https://github.com/settings/tokens").

Definition GithubUser : CfnParameter :=
  mkCfnParameter "GithubUser" "String" (Some "aws-samples") false
    (Some "Your github username (you need to fork the two repositories https://github.com/aws-samples/amazon-kinesis-analytics-beam-taxi-consumer and https://github.com/aws-samples/amazon-kinesis-replay)").

(** Where a property handed to a construct comes from. *)
Inductive prop_value : Type :=
| ParameterValue (p : CfnParameter)      (* [p.valueAsString] *)
| SecretParameter (p : CfnParameter)     (* [SecretValue.cfnParameter(p)] *)
| Literal (s : string)
| StackValue (name : string).            (* [bucket], [this.region], [this.account] *)

(** The properties of [new GithubBuildPipeline(this,
    'BeamTaxiConsumerBuildPipeline', {...})]. *)
Definition consumerBuild_props : list (string * prop_value) :=
  [ ("bucket", StackValue "bucket");
    ("region", StackValue "region");
    ("accountId", StackValue "account");
    ("oauthToken", SecretParameter GithubOauthToken);
    ("repo", Literal "amazon-kinesis-analytics-beam-taxi-consumer");
    ("owner", ParameterValue GithubUser);
    ("artifactPrefix", Literal "beam-taxi-count") ].

End Stack.

(** ** The Completion Gate *)

(** Decimal numerals, as in ["Timeout": "300"]. *)
Definition digit_of (c : ascii) : option nat :=
  let n := nat_of_ascii c in
  if (48 <=? n)%nat && (n <=? 57)%nat then Some (n - 48)%nat else None.

Fixpoint parse_digits (s : string) (acc : nat) : option nat :=
  match s with
  | EmptyString => Some acc
  | String c rest =>
      match digit_of c with
      | Some d => parse_digits rest (10 * acc + d)%nat
      | None => None
      end
  end.

Definition parse_decimal (s : string) : option nat :=
  match s with
  | EmptyString => None
  | _ => parse_digits s 0
  end.

Module Gate.

(** Modelled from the spec: section 3, CompletionGate, "handle, required
    signal count (always 1), timeout duration, fired flag, recorded
    status/payload", and section 4.4, "[waiting -> fired(success) |
    fired(failure) | expired]". *)
Inductive status : Type := SUCCESS | FAILURE.

(** The body of the gate signal protocol. *)
Record signal : Type := mkSignal {
  Status : status;
  Reason : string;
  UniqueId : string;
  Data : string
}.

Inductive state : Type :=
| waiting
| fired (s : signal)
| expired.

Record gate : Type := mkGate {
  handle : string;
  timeout : nat;
  elapsed : nat;
  current : state
}.

(** What happens to a gate: a valid signal arrives, or one unit of time
    passes. *)
Inductive input : Type :=
| Signal (s : signal)
| Tick.

(** Modelled from the spec: the engine of the wait condition is a service of
    the platform, the template only declares [Count], [Handle] and
    [Timeout].  Section 3: "required signal count (always 1)", "Created
    once per deployment at provisioning time"; section 4.4: "Initial state
    [waiting] starting when the deployment provisions the gate". *)
Definition provision (wc : Template.WaitConditionProperties) (url : string)
    : option gate :=
  if (Template.Count wc =? 1)%nat then
    match parse_decimal (Template.Timeout wc) with
    | Some t => Some (mkGate url t 0 waiting)
    | None => None
    end
  else None.

(** Modelled from the spec: section 4.4, "Transition to [fired(*)] occurs on
    the first valid signal received, regardless of source; the recorded
    status and payload are taken from that first signal verbatim.
    Transition to [expired] occurs automatically when the configured
    timeout elapses while still [waiting].  Once in any terminal state, the
    gate ignores further signals without error (idempotent no-op)". *)
Definition step (g : gate) (i : input) : gate :=
  match i with
  | Signal s =>
      match current g with
      | waiting => mkGate (handle g) (timeout g) (elapsed g) (fired s)
      | _ => g
      end
  | Tick =>
      match current g with
      | waiting =>
          mkGate (handle g) (timeout g) (S (elapsed g))
                 (if (timeout g <=? S (elapsed g))%nat then expired else waiting)
      | _ => mkGate (handle g) (timeout g) (S (elapsed g)) (current g)
      end
  end.

Definition run (g : gate) (inputs : list input) : gate :=
  fold_left step inputs g.

(** Modelled from the spec: section 4.4, "[expired] is treated by the
    blocked caller identically to [fired(failure)]". *)
Definition terminal_status (g : gate) : option status :=
  match current g with
  | waiting => None
  | fired s => Some (Status s)
  | expired => Some FAILURE
  end.

Definition status_of_string (s : string) : option status :=
  if String.eqb s "SUCCESS" then Some SUCCESS
  else if String.eqb s "FAILURE" then Some FAILURE
  else None.

(** Modelled from the spec: section 6, gate signal protocol, "an HTTP PUT to
    the gate's unguessable handle URL with body [{Status: "SUCCESS" |
    "FAILURE", Reason: string, UniqueId: string, Data: string}]". *)
Definition signal_of_request (g : gate) (req : NotifyLambda.Request)
    : option signal :=
  if String.eqb (NotifyLambda.method req) "PUT"
     && String.eqb (NotifyLambda.full_url req) (handle g)
  then
    match NotifyLambda.data req with
    | VDict d =>
        match assoc "Status" d, assoc "Reason" d, assoc "UniqueId" d, assoc "Data" d with
        | Some (VStr st), Some (VStr r), Some (VStr u), Some (VStr dt) =>
            match status_of_string st with
            | Some s => Some (mkSignal s r u dt)
            | None => None
            end
        | _, _, _, _ => None
        end
    | _ => None
    end
  else None.

End Gate.

(** ** The Pipeline Orchestrator *)

Module Orchestrator.
Import Template.

(** Modelled from the spec: section 3, PipelineExecution and NotifyJob, "the
    execution id/job handle needed to report back to the Orchestrator".  One
    run of the pipeline: its id and the id of the job the Orchestrator creates
    for the Lambda action. *)
Record PipelineExecution : Type := mkExecution {
  execution_id : string;
  job_handle : string
}.

(** What a run meets outside the pipeline: the results of the actions run
    by other services (by action name), the network seen by the Lambda
    function, and the values of the deployment's parameters and resources. *)
Record Surroundings : Type := mkSurroundings {
  action_result : string -> bool;
  net : NotifyLambda.Network;
  refs : gmap string string
}.

(** The history of a run. *)
Inductive step : Type :=
| ActionRan (stage action : string) (succeeded : bool)
| BridgeCall (e : NotifyLambda.entry).

(** The environment of the Lambda function: its [Variables], resolved. *)
Definition lambda_environ (refs : gmap string string) (f : FunctionProperties)
    : gmap string string :=
  fold_right
    (fun kv env =>
       match resolve refs (snd kv) with
       | Some v => <[fst kv := v]> env
       | None => env
       end)
    ∅ (Variables f).

(** Modelled from the spec: section 4.3, the bridge is "given a NotifyJob
    (execution id + job handle ...)".  The event is shaped as the handler
    reads it, [event['CodePipeline.job']['id']]. *)
Definition invoke_event (x : PipelineExecution) : value :=
  VDict [ ("CodePipeline.job", VDict [ ("id", VStr (job_handle x)) ]) ].

Definition delivered (e : NotifyLambda.entry) : bool :=
  match e with
  | (_, None) => true
  | (_, Some _) => false
  end.

(** Modelled from the spec: section 6, job report protocol,
    "report-success(jobId) and report-failure(jobId, {message, type})".  A
    Lambda action succeeded when a success report reached the Orchestrator. *)
Definition job_succeeded (t : list NotifyLambda.entry) : bool :=
  existsb (fun e => NotifyLambda.is_success_report (fst e) && delivered e) t.

Definition is_notify (a : Action) : bool :=
  String.eqb (Provider (ActionType a)) "Lambda"
  && match assoc "FunctionName" (Configuration a) with
     | Some (Ref f) => String.eqb f NotifyLambdaId
     | _ => false
     end.

(** The invocation of the Lambda function by its action. *)
Definition notify_run (w : Surroundings) (x : PipelineExecution)
    : NotifyLambda.M unit :=
  NotifyLambda.handler (net w) (lambda_environ (refs w) NotifyLambdaFunction)
    (invoke_event x) VNone.

Definition run_action (w : Surroundings) (x : PipelineExecution)
    (stage : string) (a : Action) : list step * bool :=
  if is_notify a then
    let m := notify_run w x in
    let ok := job_succeeded (NotifyLambda.trace_of m) in
    (ActionRan stage (Name a) ok :: map BridgeCall (NotifyLambda.trace_of m), ok)
  else
    ([ActionRan stage (Name a) (action_result w (Name a))], action_result w (Name a)).

(** The actions of a stage in the order of their [RunOrder]; actions with
    the same [RunOrder] keep the order of the template. *)
Fixpoint insert_by_run_order (a : Action) (l : list Action) : list Action :=
  match l with
  | [] => [a]
  | b :: l' =>
      if (RunOrder a <=? RunOrder b)%nat then a :: b :: l'
      else b :: insert_by_run_order a l'
  end.

Definition by_run_order (l : list Action) : list Action :=
  fold_right insert_by_run_order [] l.

(** Modelled from the spec: the stage runner is a service of the platform,
    the template only declares stages, actions and their [RunOrder].
    Section 4.2: "Transitions are strictly sequential: a stage only starts
    once its predecessor succeeded"; "any stage failure halts forward
    progress (no stage after the failed one except Notify executes)";
    "Notify stage: always runs, regardless of upstream success or failure".
    The Notify stage of the spec is the Lambda action of the template
    ([is_notify]).  [healthy] tells whether everything so far succeeded: an
    action runs when it does, the Lambda action runs in any case, and every
    other action after a failure is skipped. *)
Fixpoint run_actions (w : Surroundings) (x : PipelineExecution)
    (stage : string) (healthy : bool) (l : list Action) : list step * bool :=
  match l with
  | [] => ([], healthy)
  | a :: l' =>
      if healthy || is_notify a then
        let '(h, ok) := run_action w x stage a in
        let '(h', ok') := run_actions w x stage (healthy && ok) l' in
        (h ++ h', ok')
      else run_actions w x stage false l'
  end.

(** Modelled from the spec: section 4.2, as for [run_actions]; the stages
    are gone through in order and pass on whether everything so far
    succeeded. *)
Fixpoint run_stages (w : Surroundings) (x : PipelineExecution)
    (healthy : bool) (stages : list Stage) : list step * bool :=
  match stages with
  | [] => ([], healthy)
  | s :: stages' =>
      let '(h, ok) :=
        run_actions w x (StageName s) healthy (by_run_order (Actions s)) in
      let '(h', ok') := run_stages w x ok stages' in
      (h ++ h', ok')
  end.

(** The history of one execution of the template's pipeline. *)
Definition history (w : Surroundings) (x : PipelineExecution) : list step :=
  fst (run_stages w x true Stages).

Definition succeeded (w : Surroundings) (x : PipelineExecution) : bool :=
  snd (run_stages w x true Stages).

(** The end of every history: the Lambda action and the calls of the
    bridge. *)
Definition notify_steps (w : Surroundings) (x : PipelineExecution) : list step :=
  ActionRan "Copy" "InvokeAction"
    (job_succeeded (NotifyLambda.trace_of (notify_run w x)))
  :: map BridgeCall (NotifyLambda.trace_of (notify_run w x)).

(** *** Reading a history *)

Definition ran (h : list step) (action : string) : nat :=
  length (List.filter
            (fun s => match s with
                      | ActionRan _ a _ => String.eqb a action
                      | BridgeCall _ => false
                      end) h).

Fixpoint bridge_trace (h : list step) : list NotifyLambda.entry :=
  match h with
  | [] => []
  | BridgeCall e :: h' => e :: bridge_trace h'
  | ActionRan _ _ _ :: h' => bridge_trace h'
  end.

(** The signals sent to the gate, and those that got a success response. *)
Definition signals_sent (h : list step) : list NotifyLambda.Request :=
  NotifyLambda.signals (bridge_trace h).

Definition signals_delivered (h : list step) : list NotifyLambda.Request :=
  NotifyLambda.signals (List.filter delivered (bridge_trace h)).

(** What the gate receives from a run. *)
Definition gate_inputs (g : Gate.gate) (h : list step) : list Gate.input :=
  omap (fun req => Gate.Signal <$> Gate.signal_of_request g req) (signals_delivered h).

Definition build_failed (h : list step) : Prop :=
  In (ActionRan "Build" "BuildAction" false) h.

Definition build_and_publish_succeeded (h : list step) : Prop :=
  In (ActionRan "Build" "BuildAction" true) h
  /\ In (ActionRan "Copy" "CopyAction" true) h.

Definition status_field (req : NotifyLambda.Request) : option value :=
  match NotifyLambda.data req with
  | VDict d => assoc "Status" d
  | _ => None
  end.

Definition unique_id_field (req : NotifyLambda.Request) : option value :=
  match NotifyLambda.data req with
  | VDict d => assoc "UniqueId" d
  | _ => None
  end.

(** The behaviour "a failed Build still leads to one Notify run, which
    delivers a FAILURE signal, and Publish is skipped". *)
Definition notifies_failure (h : list step) : Prop :=
  build_failed h ->
  ran h "InvokeAction" = 1%nat
  /\ (exists req, In req (signals_sent h) /\ status_field req = Some (VStr "FAILURE"))
  /\ ran h "CopyAction" = 0%nat.

End Orchestrator.

(** ** Source Intake: the webhook *)

Module Intake.
Import Template.

(** Modelled from the spec: section 6, webhook intake endpoint, "accepts
    [{ref: string, ...}] payloads with an HMAC signature header computed
    over the raw body".  A change notification: the raw body, the body read
    as JSON, and the digest carried by the signature header. *)
Record Notification : Type := mkNotification {
  body : string;
  payload : value;
  signature : string
}.

(** The segments of a dotted path, ["$.ref"] giving [["$"; "ref"]]. *)
Fixpoint split_dots (s : string) (cur : string) : list string :=
  match s with
  | EmptyString => [cur]
  | String c rest =>
      if Ascii.eqb c "."%char then cur :: split_dots rest ""
      else split_dots rest (cur +:+ String c "")
  end.

Fixpoint select (segments : list string) (v : value) : option value :=
  match segments with
  | [] => Some v
  | k :: segments' =>
      match v with
      | VDict d =>
          match assoc k d with
          | Some v' => select segments' v'
          | None => None
          end
      | _ => None
      end
  end.

(** The value a [JsonPath] of the form [$.a.b] selects. *)
Definition json_path (path : string) (v : value) : option value :=
  match split_dots path "" with
  | "$" :: segments => select segments v
  | _ => None
  end.

(** Modelled from the spec: section 6, "matches [ref] against
    [refs/heads/<configured branch>]".  [{Key}] in a [MatchEquals] pattern
    stands for the configuration value [Key] of the target action.
    [pending] holds the key being read. *)
Fixpoint expand (lookup : string -> option string) (s : string)
    (pending : option string) : string :=
  match s with
  | EmptyString =>
      match pending with
      | None => ""
      | Some k => "{" +:+ k
      end
  | String c rest =>
      match pending with
      | None =>
          if Ascii.eqb c "{"%char then expand lookup rest (Some "")
          else String c (expand lookup rest None)
      | Some k =>
          if Ascii.eqb c "}"%char then
            match lookup k with
            | Some v => v +:+ expand lookup rest None
            | None => "{" +:+ k +:+ "}" +:+ expand lookup rest None
            end
          else expand lookup rest (Some (k +:+ String c ""))
      end
  end.

Definition configuration_value (refs : gmap string string) (a : Action)
    (key : string) : option string :=
  match assoc key (Configuration a) with
  | Some v => resolve refs v
  | None => None
  end.

Definition filter_matches (refs : gmap string string) (a : Action)
    (n : Notification) (f : Filter) : bool :=
  match json_path (JsonPath f) (payload n) with
  | Some (VStr s) =>
      String.eqb s (expand (configuration_value refs a) (MatchEquals f) None)
  | _ => false
  end.

Section WithHmac.

(** The keyed digest of the body, as the sender and the receiver both
    compute it. *)
Variable hmac : string -> string -> string.

Definition authentic (secret : string) (n : Notification) : bool :=
  String.eqb (signature n) (hmac secret (body n)).

(** Modelled from the spec: the dispatch of a webhook is a service of the
    platform, the template only declares [Authentication],
    [SecretToken], [Filters] and [TargetAction].  Section 4.1: "On
    receipt of a notification whose ref matches the configured branch,
    starts a new PipelineExecution.  Rejects (no pipeline start)
    notifications that fail HMAC verification or target a non-matching
    ref"; section 6: "an HMAC signature header computed over the raw
    body using a shared secret; matches [ref] against
    [refs/heads/<configured branch>]". *)
Definition starts_execution (refs : gmap string string)
    (wh : WebhookProperties) (stages : list Stage) (n : Notification) : bool :=
  String.eqb (Authentication wh) "GITHUB_HMAC"
  && match resolve refs (SecretToken wh), find_action stages (TargetAction wh) with
     | Some secret, Some a =>
         authentic secret n && forallb (filter_matches refs a n) (Filters wh)
     | _, _ => false
     end.

End WithHmac.

(** The secret that authenticates notifications, and the token the source
    action uses to read the repository. *)
Definition webhook_secret (refs : gmap string string) : option string :=
  resolve refs (SecretToken Webhook).

Definition source_token (refs : gmap string string) : option string :=
  configuration_value refs SourceAction "OAuthToken".

End Intake.

(** ** The configuration surface *)

Module Config.

Inductive ConfigParam : Type :=
| repoOwner
| repoName
| branch
| sharedSecret
| artifactNamePattern
| buildCommand
| gateTimeout.

Definition all_params : list ConfigParam :=
  [repoOwner; repoName; branch; sharedSecret; artifactNamePattern; buildCommand;
   gateTimeout].

(** What the stack passes to the build pipeline construct for a
    configuration parameter.  The call passes no branch, no build command
    and no timeout. *)
Definition stack_setting (p : ConfigParam) : option Stack.prop_value :=
  match p with
  | repoOwner => assoc "owner" Stack.consumerBuild_props
  | repoName => assoc "repo" Stack.consumerBuild_props
  | sharedSecret => assoc "oauthToken" Stack.consumerBuild_props
  | artifactNamePattern => assoc "artifactPrefix" Stack.consumerBuild_props
  | branch | buildCommand | gateTimeout => None
  end.

Definition literal (v : option Template.cfn) : option string :=
  match v with
  | Some (Template.Str s) => Some s
  | _ => None
  end.

(** The literal the synthesized template carries for a parameter. *)
Definition template_value (p : ConfigParam) : option string :=
  match p with
  | repoOwner => literal (assoc "Owner" (Template.Configuration Template.SourceAction))
  | repoName => literal (assoc "Repo" (Template.Configuration Template.SourceAction))
  | branch => literal (assoc "Branch" (Template.Configuration Template.SourceAction))
  | sharedSecret =>
      literal (assoc "OAuthToken" (Template.Configuration Template.SourceAction))
  | artifactNamePattern => hd_error (Template.artifact_files Template.MyProject_BuildSpec)
  | buildCommand => hd_error (Template.build_commands Template.MyProject_BuildSpec)
  | gateTimeout => Some (Template.Timeout Template.WaitCondition)
  end.

(** The stack passes a value for the parameter. *)
Definition supplied (p : ConfigParam) : bool :=
  match stack_setting p with
  | Some _ => true
  | None => false
  end.

(** The parameter must be given at deployment: it is bound to a stack
    parameter that has no default. *)
Definition required_at_deployment (p : ConfigParam) : bool :=
  match stack_setting p with
  | Some (Stack.ParameterValue q) | Some (Stack.SecretParameter q) =>
      match Stack.default q with
      | None => true
      | Some _ => false
      end
  | _ => false
  end.

(** The value in effect when nobody gives one: the default of the stack
    parameter the configuration parameter is bound to, and, for a parameter
    the stack does not pass at all, the value the template carries. *)
Definition default_value (p : ConfigParam) : option string :=
  match stack_setting p with
  | Some (Stack.ParameterValue q) | Some (Stack.SecretParameter q) => Stack.default q
  | Some (Stack.Literal _) | Some (Stack.StackValue _) => None
  | None => template_value p
  end.

(** "All required, no defaults beyond [branch = "master"]". *)
Definition all_required_but_branch : Prop :=
  (forall p, p <> branch -> supplied p = true /\ default_value p = None)
  /\ default_value branch = Some "master".

End Config.

(** *** Sample executions *)

Module Runs.
Import Orchestrator.

Definition handle_url : string :=
  "https://cloudformation-waitcondition.example/handle".

Definition refs0 : gmap string string :=
  {[ Template.WaitHandle := handle_url;
     "GithubOauthToken" := "s3cr3t" ]}.

Definition x42 : PipelineExecution := mkExecution "execution-1" "job-42".

(** Every action succeeds and every service answers. *)
Definition all_green : Surroundings :=
  mkSurroundings (fun _ => true) Samples.net_ok refs0.

(** The build exits non-zero. *)
Definition build_fails : Surroundings :=
  mkSurroundings (fun a => negb (String.eqb a "BuildAction")) Samples.net_ok refs0.

Definition sample_gate : Gate.gate := Gate.mkGate handle_url 300 0 Gate.waiting.

Definition sample_failure : Gate.signal :=
  Gate.mkSignal Gate.FAILURE "Compilation Failed" "job-41" "".

Definition sample_success : Gate.signal :=
  Gate.mkSignal Gate.SUCCESS "Compilation Succeeded" "job-42" "Compilation Succeeded".

(** A stand-in for the keyed digest, for the examples. *)
Definition toy_hmac (key msg : string) : string := key +:+ ":" +:+ msg.

Definition push_to_master : Intake.Notification :=
  Intake.mkNotification "push-1"
    (VDict [ ("ref", VStr "refs/heads/master"); ("after", VStr "0c0ffee") ])
    "s3cr3t:push-1".

Definition push_to_feature : Intake.Notification :=
  Intake.mkNotification "push-2"
    (VDict [ ("ref", VStr "refs/heads/feature-x") ])
    "s3cr3t:push-2".

Definition forged_push : Intake.Notification :=
  Intake.mkNotification "push-3"
    (VDict [ ("ref", VStr "refs/heads/master") ])
    "guess:push-3".

End Runs.

(** ** Reading the calls of the bridge *)

Module BridgeCalls.
Import NotifyLambda.

(** The lines the handler prints, in order. *)
Fixpoint prints (t : list entry) : list string :=
  match t with
  | [] => []
  | (Print line, _) :: t' => line :: prints t'
  | _ :: t' => prints t'
  end.

(** The job id a call carries: [UniqueId] of the signal body, [jobId] of a
    report. *)
Definition call_job_id (c : call) : option value :=
  match c with
  | UrlOpen req =>
      match data req with
      | VDict d => assoc "UniqueId" d
      | _ => None
      end
  | PutJobSuccessResult jobId => Some jobId
  | PutJobFailureResult jobId _ => Some jobId
  | Print _ => None
  end.

End BridgeCalls.

(** ** The constructor of [CdkStack], [lib/cdk-stack.ts] *)

Module CdkStack.

(** [StackProps]: three optional flags. *)
Record StackProps : Type := mkStackProps {
  build : option bool;
  demoInfrastructure : option bool;
  completeInfrastructure : option bool
}.

(** The truth value JavaScript gives to an optional boolean. *)
Definition truthy (b : option bool) : bool :=
  match b with
  | Some true => true
  | _ => false
  end.

(** What is handed to a construct.  [Passed] takes over the values of the
    build pipeline call; [Const] is a constant of the constructor, [Member]
    a field of one. *)
Inductive arg : Type :=
| Passed (v : Stack.prop_value)
| Lit (s : string)
| Num (n : nat)
| Flag (b : bool)
| Const (name : string)
| Member (object field : string)
| Seconds (n : nat)
| InlineCode (source : string)
| TemplateLiteral (parts : list arg)
| Obj (fields : list (string * arg))
| Arr (items : list arg).

Inductive construct : Type :=
| ParameterNode (p : Stack.CfnParameter)
| Node (class id : string) (props : list (string * arg)).

Definition construct_id (c : construct) : string :=
  match c with
  | ParameterNode p => Stack.id p
  | Node _ id _ => id
  end.

Definition construct_props (c : construct) : list (string * arg) :=
  match c with
  | ParameterNode _ => []
  | Node _ _ props => props
  end.

Definition description : string :=
  "Creates sample Apache Beam pipeline that can be deployed to Kinesis Data Analytics for Java Applications and Amazon EMR (amazon-kinesis-analytics-beam-taxi-consumer)".

Definition lambda_source_path : string := "lambda/add-approximate-arrival-time.js".

(** [fs.readFileSync] on a missing file. *)
Inductive error : Type :=
| ENOENT (path : string).

Definition vpc : construct :=
  Node "ec2.Vpc" "VPC"
    [ ("cidr", Lit "10.0.0.0/16");
      ("subnetConfiguration",
       Arr [ Obj [ ("cidrMask", Num 24);
                   ("name", Lit "public");
                   ("subnetType", Member "ec2.SubnetType" "PUBLIC") ] ]) ].

Definition bucket : construct :=
  Node "s3.Bucket" "Bucket" [ ("versioned", Flag true) ].

Definition consumerBuild : construct :=
  Node "GithubBuildPipeline" "BeamTaxiConsumerBuildPipeline"
    (map (fun kv => (fst kv, Passed (snd kv))) Stack.consumerBuild_props).

(** Everything up to the first [return]. *)
Definition build_part : list construct :=
  [ ParameterNode Stack.KeyName;
    vpc;
    bucket;
    Node "cdk.CfnOutput" "S3Bucket" [ ("value", Member "bucket" "bucketName") ];
    ParameterNode Stack.GithubOauthToken;
    ParameterNode Stack.GithubUser;
    consumerBuild ].

Definition enrichEvents (lambdaSource : string) : construct :=
  Node "lambda.Function" "EnrichEventsLambda"
    [ ("runtime", Member "lambda.Runtime" "NODEJS_8_10");
      ("code", InlineCode lambdaSource);
      ("timeout", Seconds 60);
      ("handler", Lit "index.handler") ].

Definition kinesisReplay : construct :=
  Node "KinesisReplay" "KinesisReplayInfrastructure"
    [ ("bucket", Passed (Stack.StackValue "bucket"));
      ("keyName", Passed (Stack.ParameterValue Stack.KeyName));
      ("region", Passed (Stack.StackValue "region"));
      ("accountId", Passed (Stack.StackValue "account"));
      ("oauthToken", Passed (Stack.SecretParameter Stack.GithubOauthToken));
      ("owner", Passed (Stack.ParameterValue Stack.GithubUser));
      ("vpc", Const "vpc") ].

Definition emr : construct :=
  Node "EmrInfrastructure" "EmrInfrastructure"
    [ ("bucket", Passed (Stack.StackValue "bucket"));
      ("keyName", Passed (Stack.ParameterValue Stack.KeyName));
      ("region", Passed (Stack.StackValue "region"));
      ("vpc", Const "vpc") ].

(** Between the first and the second [return]. *)
Definition demo_part (lambdaSource : string) : list construct :=
  [ enrichEvents lambdaSource; kinesisReplay; emr ].

(** The two outputs of the branch [! props.completeInfrastructure]. *)
Definition demo_outputs : list construct :=
  [ Node "cdk.CfnOutput" "KinesisReplayCommand"
      [ ("value",
         TemplateLiteral
           [ Lit "java -jar amazon-kinesis-replay-*.jar -streamRegion ";
             Passed (Stack.StackValue "region");
             Lit " -objectPrefix artifacts/kinesis-analytics-taxi-consumer/taxi-trips-partitioned.json.lz4/dropoff_year=2018/ -speedup 720 -streamName beam-summit" ]) ];
    Node "cdk.CfnOutput" "StartFlinkApplication"
      [ ("value",
         TemplateLiteral
           [ Lit "flink run -p 8 beam-taxi-count-*.jar --runner=FlinkRunner --inputS3Pattern=s3://";
             Member "bucket" "bucketName";
             Lit "/kinesis-stream-data/*/*/*/*/* --inputStreamName=beam-summit --awsRegion=";
             Passed (Stack.StackValue "region");
             Lit " --source=s3 --outputBoroughs=true" ]) ] ].

(** After the second [return]. *)
Definition complete_part : list construct :=
  [ Node "kds.Stream" "InputStream" [ ("shardCount", Num 4) ];
    Node "BeamDashboard" "Dashboard"
      [ ("inputStream", Const "stream");
        ("dashboardName", Member "cdk.Aws" "STACK_NAME") ];
    Node "FirehoseInfrastructure" "FirehoseInfrastructure"
      [ ("bucket", Passed (Stack.StackValue "bucket"));
        ("inputStream", Const "stream");
        ("lambda", Const "enrichEvents");
        ("buildSuccessWaitCondition", Member "consumerBuild" "buildSuccessWaitCondition") ];
    Node "KinesisAnalyticsJava" "FlinkInfrastructure"
      [ ("applicationName", Member "cdk.Aws" "STACK_NAME");
        ("dashboard", Const "dashboard");
        ("bucket", Passed (Stack.StackValue "bucket"));
        ("inputStream", Const "stream");
        ("accountId", Passed (Stack.StackValue "account"));
        ("region", Passed (Stack.StackValue "region"));
        ("buildSuccessWaitCondition", Member "consumerBuild" "buildSuccessWaitCondition") ];
    Node "cdk.CfnOutput" "KinesisReplayCommand"
      [ ("value",
         TemplateLiteral
           [ Lit "java -jar amazon-kinesis-replay-*.jar -streamRegion ";
             Passed (Stack.StackValue "region");
             Lit " -streamName ";
             Member "stream" "streamName";
             Lit " -objectPrefix artifacts/kinesis-analytics-taxi-consumer/taxi-trips-partitioned.json.lz4/dropoff_year=2018/ -speedup 720" ]) ];
    Node "cdk.CfnOutput" "StartFlinkApplication"
      [ ("value",
         TemplateLiteral
           [ Lit "flink run -p 8 beam-taxi-count-*.jar --runner=FlinkRunner --inputS3Pattern=s3://";
             Member "bucket" "bucketName";
             Lit "/kinesis-stream-data/*/*/*/*/* --awsRegion=";
             Passed (Stack.StackValue "region");
             Lit " --inputStreamName=";
             Member "stream" "streamName";
             Lit " --source=s3 --outputBoroughs=true" ]) ] ].

(** [constructor(scope, id, props)]: the constructs added to the stack, in
    order, and the error that ended the constructor, if one did.  [fs] gives
    the content of the files that exist; a path outside it is a missing
    file.  Other failures of the read and exceptions raised inside a
    construct are not part of this model. *)
Definition constructor (fs : string -> option string) (props : StackProps)
    : list construct * option error :=
  if negb (truthy (demoInfrastructure props) || truthy (completeInfrastructure props))
  then (build_part, None)
  else
    match fs lambda_source_path with
    | None => (build_part, Some (ENOENT lambda_source_path))
    | Some lambdaSource =>
        if negb (truthy (completeInfrastructure props))
        then (build_part ++ demo_part lambdaSource ++ demo_outputs, None)
        else (build_part ++ demo_part lambdaSource ++ complete_part, None)
    end.

Definition constructs (fs : string -> option string) (props : StackProps)
    : list construct :=
  fst (constructor fs props).

Definition ids (l : list construct) : list string := map construct_id l.

(** The constructs that are handed the wait condition of the build. *)
Definition waits_for_build (c : construct) : bool :=
  match assoc "buildSuccessWaitCondition" (construct_props c) with
  | Some (Member "consumerBuild" "buildSuccessWaitCondition") => true
  | _ => false
  end.

(** Whether the constructor goes past its first [return], and past its
    second. *)
Definition wants_demo (props : StackProps) : bool :=
  truthy (demoInfrastructure props) || truthy (completeInfrastructure props).

Definition wants_complete (props : StackProps) : bool :=
  truthy (completeInfrastructure props).

Definition find_construct (id : string) (l : list construct) : option construct :=
  List.find (fun c => String.eqb (construct_id c) id) l.

(** Sample file systems and properties. *)
Definition no_files : string -> option string := fun _ => None.

Definition with_lambda_source : string -> option string :=
  fun path =>
    if String.eqb path lambda_source_path
    then Some "exports.handler = async (event) => event;"
    else None.

Definition build_only : StackProps := mkStackProps (Some true) None None.
Definition demo : StackProps := mkStackProps None (Some true) None.
Definition complete : StackProps := mkStackProps None None (Some true).

End CdkStack.

(** ** Properties of the Notifier Bridge *)

Section NotifierBridge.
Import NotifyLambda.

Variable net : Network.
Variable environ : gmap string string.
Variables event context : value.

(** The handler, unfolded along its three branches. *)
Lemma handler_run job_id url :
  job_id_of event = Some job_id ->
  environ !! "waitHandleUrl" = Some url ->
  handler net environ event context =
    let req := signal_request url job_id in
    match urlopen net req with
    | Some e =>
        let '(t, r) := except_branch net job_id e in
        ((UrlOpen req, Some e) :: t, r)
    | None =>
        match put_job_success_result net job_id with
        | None =>
            ([(UrlOpen req, None); (PutJobSuccessResult job_id, None)], inr tt)
        | Some e =>
            let '(t, r) := except_branch net job_id e in
            ((UrlOpen req, None) :: (PutJobSuccessResult job_id, Some e) :: t, r)
        end
    end.
Proof.
  intros Hjob Hurl.
  unfold job_id_of in Hjob.
  destruct event as [| | | | |d]; try discriminate.
  destruct (assoc "CodePipeline.job" d) as [j|] eqn:Hd; try discriminate.
  destruct j as [| | | | |j]; try discriminate.
  unfold handler, mbind, M_bind, bind, subscript, environ_get.
  rewrite Hd. cbn. rewrite Hjob. cbn. rewrite Hurl. cbn.
  unfold signal_request, except_branch, failure_details.
  destruct (urlopen net _) as [e|]; cbn.
  - destruct (put_job_failure_result net _ _); reflexivity.
  - destruct (put_job_success_result net job_id) as [e|]; cbn; [|reflexivity].
    destruct (put_job_failure_result net _ _); reflexivity.
Qed.

(** Without a job id in the event, or without the handle URL in the
    environment, the handler raises before any call is made. *)
Lemma handler_no_job :
  job_id_of event = None ->
  trace_of (handler net environ event context) = [].
Proof.
  intros Hjob. unfold job_id_of in Hjob.
  unfold handler, mbind, M_bind, bind, subscript, environ_get.
  destruct event as [| | | | |d]; try reflexivity.
  destruct (assoc "CodePipeline.job" d) as [j|]; [|reflexivity].
  destruct j as [| | | | |j]; try reflexivity.
  cbn. rewrite Hjob. reflexivity.
Qed.

Lemma handler_no_url job_id :
  job_id_of event = Some job_id ->
  environ !! "waitHandleUrl" = None ->
  trace_of (handler net environ event context) = [].
Proof.
  intros Hjob Hurl. unfold job_id_of in Hjob.
  destruct event as [| | | | |d]; try discriminate.
  destruct (assoc "CodePipeline.job" d) as [j|] eqn:Hd; try discriminate.
  destruct j as [| | | | |j]; try discriminate.
  unfold handler, mbind, M_bind, bind, subscript, environ_get.
  rewrite Hd. cbn. rewrite Hjob. cbn. rewrite Hurl. reflexivity.
Qed.

End NotifierBridge.

Section NotifierBridgeExamples.
Import NotifyLambda Samples.

Example handler_ok :
  handler net_ok environ0 event42 VNone =
    ([ (UrlOpen (signal_request "https://cloudformation-waitcondition.example/handle"
                                (VStr "job-42")), None);
       (PutJobSuccessResult (VStr "job-42"), None) ],
     inr tt).
Proof. vm_compute. reflexivity. Qed.

Example handler_gate_down :
  handler net_gate_down environ0 event42 VNone =
    ([ (UrlOpen (signal_request "https://cloudformation-waitcondition.example/handle"
                                (VStr "job-42")), Some url_error);
       (Print "failure: <urlopen error timed out>", None);
       (PutJobFailureResult (VStr "job-42")
          (mkFailureDetails "<urlopen error timed out>" "JobFailed"), None) ],
     inr tt).
Proof. vm_compute. reflexivity. Qed.

Example handler_orchestrator_down :
  outbound (trace_of (handler net_orchestrator_down environ0 event42 VNone)) =
    [ UrlOpen (signal_request "https://cloudformation-waitcondition.example/handle"
                              (VStr "job-42"));
      PutJobSuccessResult (VStr "job-42");
      PutJobFailureResult (VStr "job-42")
        (mkFailureDetails "Could not connect to the endpoint URL" "JobFailed") ]
  /\ result_of (handler net_orchestrator_down environ0 event42 VNone) = inl client_error.
Proof. vm_compute. split; reflexivity. Qed.

Example handler_malformed_event :
  handler net_ok environ0 (VDict []) VNone = ([], inl (KeyError "CodePipeline.job")).
Proof. vm_compute. reflexivity. Qed.

End NotifierBridgeExamples.

(** *** The job report follows the outcome of the signal *)

Section JobReport.
Import NotifyLambda.

(** C3, as stated, fails: when the signal is delivered and the success
    report itself raises, the Orchestrator also gets a failure report,
    although the HTTP call returned a success response. *)
Lemma report_follows_signal_fails :
  ~ report_follows_signal Samples.net_success_report_lost Samples.environ0
      Samples.event42 VNone (VStr "job-42")
      "https://cloudformation-waitcondition.example/handle".
Proof.
  unfold report_follows_signal. vm_compute. intros H. discriminate H.
Qed.

(** C3, amended.  For an invocation with a job event and a configured handle
    URL, the bridge calls the success report exactly when the HTTP signal to
    the gate came back with a success response.  When the signal failed with
    [e], the failure report carrying [{message: str(e), type: "JobFailed"}]
    is the only report.  When the signal was delivered, the success report
    is the only report unless that call itself raises [e]; then the failure
    report carrying [{message: str(e), type: "JobFailed"}] follows it.  A
    job report is made in every case, so a failed signal never suppresses
    it. *)
Theorem bridge_reports_job_outcome
    (net : Network) (environ : gmap string string) (event context : value)
    (job_id : value) (url : string) :
  job_id_of event = Some job_id ->
  environ !! "waitHandleUrl" = Some url ->
  let t := trace_of (handler net environ event context) in
  let delivered := urlopen net (signal_request url job_id) in
  (existsb is_success_report (reports t) = true <-> delivered = None)
  /\ (forall e, delivered = Some e ->
        reports t =
          [PutJobFailureResult job_id {| message := str e; type := "JobFailed" |}])
  /\ (delivered = None -> put_job_success_result net job_id = None ->
      reports t = [PutJobSuccessResult job_id])
  /\ (forall e, delivered = None -> put_job_success_result net job_id = Some e ->
        reports t =
          [ PutJobSuccessResult job_id;
            PutJobFailureResult job_id {| message := str e; type := "JobFailed" |} ])
  /\ reports t <> [].
Proof.
  intros Hjob Hurl t delivered. subst t delivered.
  rewrite (handler_run net environ event context job_id url Hjob Hurl).
  cbv zeta. unfold except_branch, failure_details.
  destruct (urlopen net (signal_request url job_id)) as [e|].
  - cbn. repeat split; try discriminate.
    intros e' [= <-]. reflexivity.
  - destruct (put_job_success_result net job_id) as [e|]; cbn;
      repeat split; try discriminate; try reflexivity.
    intros e' _ [= <-]. reflexivity.
Qed.

Lemma bridge_reports_job_outcome_witness :
  let t := trace_of (handler Samples.net_success_report_lost Samples.environ0
                       Samples.event42 VNone) in
  reports t =
    [ PutJobSuccessResult (VStr "job-42");
      PutJobFailureResult (VStr "job-42")
        {| message := "Could not connect to the endpoint URL"; type := "JobFailed" |} ]
  /\ existsb is_success_report (reports t) = true.
Proof.
  pose proof (bridge_reports_job_outcome Samples.net_success_report_lost
                Samples.environ0 Samples.event42 VNone (VStr "job-42")
                "https://cloudformation-waitcondition.example/handle"
                eq_refl eq_refl) as (Hiff & _ & _ & Hboth & _).
  split.
  - exact (Hboth Samples.client_error eq_refl eq_refl).
  - apply Hiff. reflexivity.
Defined.

End JobReport.

(** *** The signal body *)

Section SignalBody.
Import NotifyLambda.

(** Every signal of an invocation is the request built from the job id of
    the event and the handle URL of the environment. *)
Lemma handler_signals
    (net : Network) (environ : gmap string string) (event context : value)
    (req : Request) :
  In req (signals (trace_of (handler net environ event context))) ->
  exists job_id url,
    job_id_of event = Some job_id
    /\ environ !! "waitHandleUrl" = Some url
    /\ req = signal_request url job_id.
Proof.
  destruct (job_id_of event) as [job_id|] eqn:Hjob.
  2:{ rewrite handler_no_job by assumption. intros []. }
  destruct (environ !! "waitHandleUrl") as [url|] eqn:Hurl.
  2:{ rewrite (handler_no_url net environ event context job_id) by assumption.
      intros []. }
  rewrite (handler_run net environ event context job_id url Hjob Hurl).
  cbv zeta. unfold except_branch.
  intros Hin. exists job_id, url. split; [reflexivity|]. split; [reflexivity|].
  destruct (urlopen net _); [|destruct (put_job_success_result net _)];
    cbn in Hin; destruct Hin as [<-|[]]; reflexivity.
Qed.

(** C9.  Whatever the event, the environment and the network, every signal
    the bridge sends carries Status "SUCCESS", Reason "Compilation
    Succeeded" and Data "Compilation Succeeded"; only UniqueId varies, and
    it is the job id of the event.  No signal with another status is ever
    sent. *)
Theorem signal_body_is_constant
    (net : Network) (environ : gmap string string) (event context : value)
    (req : Request) :
  In req (signals (trace_of (handler net environ event context))) ->
  exists job_id,
    job_id_of event = Some job_id
    /\ data req =
         VDict [ ("Status", VStr "SUCCESS");
                 ("Reason", VStr "Compilation Succeeded");
                 ("UniqueId", job_id);
                 ("Data", VStr "Compilation Succeeded") ]
    /\ method req = "PUT"
    /\ headers req = [("Content-Type", "")].
Proof.
  intros Hin.
  destruct (handler_signals net environ event context req Hin)
    as (job_id & url & Hjob & _ & ->).
  exists job_id. repeat split. assumption.
Qed.

Lemma signal_body_is_constant_witness :
  exists job_id,
    job_id_of Samples.event42 = Some job_id
    /\ data (signal_request "https://cloudformation-waitcondition.example/handle"
                            (VStr "job-42")) =
         VDict [ ("Status", VStr "SUCCESS");
                 ("Reason", VStr "Compilation Succeeded");
                 ("UniqueId", job_id);
                 ("Data", VStr "Compilation Succeeded") ]
    /\ method (signal_request "https://cloudformation-waitcondition.example/handle"
                              (VStr "job-42")) = "PUT"
    /\ headers (signal_request "https://cloudformation-waitcondition.example/handle"
                               (VStr "job-42")) = [("Content-Type", "")].
Proof.
  apply (signal_body_is_constant Samples.net_gate_down Samples.environ0
           Samples.event42 VNone).
  vm_compute. left. reflexivity.
Defined.

End SignalBody.

(** *** The effects of one invocation *)

Section BridgeEffects.
Import NotifyLambda.

(** C4, as stated, fails when the Orchestrator cannot be reached: the
    success report raises inside [try], the [except] branch then makes a
    second report, and the exception of that one leaves the handler. *)
Lemma bridge_contract_fails :
  ~ bridge_contract Samples.net_orchestrator_down Samples.environ0
      Samples.event42 VNone.
Proof.
  intros [_ [a Ha]]. vm_compute in Ha. discriminate Ha.
Qed.

(** The same invocation makes two job reports. *)
Example two_reports_when_success_report_raises :
  length (reports (trace_of (handler Samples.net_success_report_lost
                               Samples.environ0 Samples.event42 VNone))) = 2.
Proof. vm_compute. reflexivity. Qed.

(** C4, amended.  For an invocation with a job event and a configured handle
    URL, and for every outcome of the network calls:
    - exactly one signal attempt is made, and it is the first call;
    - it is followed by exactly one job report, unless the signal was
      delivered and the success report itself raised [e]: then the failure
      report for [e] follows as a second report;
    - the handler returns normally exactly when no failure report raised;
      an exception of [put_job_failure_result] is not caught. *)
Theorem bridge_effects
    (net : Network) (environ : gmap string string) (event context : value)
    (job_id : value) (url : string) :
  job_id_of event = Some job_id ->
  environ !! "waitHandleUrl" = Some url ->
  let m := handler net environ event context in
  let req := signal_request url job_id in
  signals (trace_of m) = [req]
  /\ hd_error (outbound (trace_of m)) = Some (UrlOpen req)
  /\ ((urlopen net req <> None \/ put_job_success_result net job_id = None) ->
      exists rep, outbound (trace_of m) = [UrlOpen req; rep] /\ is_report rep = true)
  /\ (forall e,
        urlopen net req = None ->
        put_job_success_result net job_id = Some e ->
        outbound (trace_of m) =
          [ UrlOpen req;
            PutJobSuccessResult job_id;
            PutJobFailureResult job_id {| message := str e; type := "JobFailed" |} ])
  /\ (returns_normally m <->
      forall details e, ~ In (PutJobFailureResult job_id details, Some e) (trace_of m)).
Proof.
  intros Hjob Hurl m req. subst m req.
  rewrite (handler_run net environ event context job_id url Hjob Hurl).
  cbv zeta. unfold except_branch, failure_details, returns_normally.
  destruct (urlopen net (signal_request url job_id)) as [e|] eqn:Hopen.
  - split; [reflexivity|]. split; [reflexivity|]. split.
    { intros _. eexists. split; reflexivity. }
    split; [discriminate|].
    destruct (put_job_failure_result net job_id _) as [e'|] eqn:Hrep; cbn; split.
    + intros [a Ha]. discriminate Ha.
    + intros H. exfalso. eapply H. right. right. left. reflexivity.
    + intros _ details e' [H|[H|[H|[]]]]; discriminate H.
    + intros _. exists tt. reflexivity.
  - destruct (put_job_success_result net job_id) as [e|] eqn:Hsucc.
    + split; [reflexivity|]. split; [reflexivity|]. split.
      { intros [H|H]; [congruence|discriminate H]. }
      split.
      { intros e' _ [= <-]. reflexivity. }
      destruct (put_job_failure_result net job_id _) as [e'|] eqn:Hrep; cbn; split.
      * intros [a Ha]. discriminate Ha.
      * intros H. exfalso. eapply H. do 3 right. left. reflexivity.
      * intros _ details e' [H|[H|[H|[H|[]]]]]; discriminate H.
      * intros _. exists tt. reflexivity.
    + split; [reflexivity|]. split; [reflexivity|]. split.
      { intros _. eexists. split; reflexivity. }
      split; [discriminate|]. cbn. split.
      * intros _ details e' [H|[H|[]]]; discriminate H.
      * intros _. exists tt. reflexivity.
Qed.

Lemma bridge_effects_witness :
  let m := handler Samples.net_orchestrator_down Samples.environ0
             Samples.event42 VNone in
  length (signals (trace_of m)) = 1
  /\ length (reports (trace_of m)) = 2
  /\ ~ returns_normally m.
Proof.
  pose proof (bridge_effects Samples.net_orchestrator_down Samples.environ0
                Samples.event42 VNone (VStr "job-42")
                "https://cloudformation-waitcondition.example/handle"
                eq_refl eq_refl) as (Hsig & _ & _ & Htwo & Hret).
  cbv zeta in *. split.
  - rewrite Hsig. reflexivity.
  - split.
    + vm_compute. reflexivity.
    + intros Hn. apply (proj1 Hret Hn (failure_details Samples.client_error)
                          Samples.client_error).
      vm_compute. do 3 right. left. reflexivity.
Defined.

End BridgeEffects.

(** ** Properties of the pipeline *)

Section Pipeline.
Import Template Orchestrator.

Example history_all_green :
  history Runs.all_green Runs.x42 =
    [ ActionRan "Source" "SourceAction" true;
      ActionRan "Build" "BuildAction" true;
      ActionRan "Copy" "CopyAction" true;
      ActionRan "Copy" "InvokeAction" true;
      BridgeCall (NotifyLambda.UrlOpen
                    (NotifyLambda.signal_request Runs.handle_url (VStr "job-42")), None);
      BridgeCall (NotifyLambda.PutJobSuccessResult (VStr "job-42"), None) ].
Proof. vm_compute. reflexivity. Qed.

Example history_build_fails :
  history Runs.build_fails Runs.x42 =
    [ ActionRan "Source" "SourceAction" true;
      ActionRan "Build" "BuildAction" false;
      ActionRan "Copy" "InvokeAction" true;
      BridgeCall (NotifyLambda.UrlOpen
                    (NotifyLambda.signal_request Runs.handle_url (VStr "job-42")), None);
      BridgeCall (NotifyLambda.PutJobSuccessResult (VStr "job-42"), None) ].
Proof. vm_compute. reflexivity. Qed.

(** The four shapes a history can take. *)
Lemma history_cases (w : Surroundings) (x : PipelineExecution) :
  history w x =
    if action_result w "SourceAction" then
      if action_result w "BuildAction" then
        if action_result w "CopyAction" then
          [ ActionRan "Source" "SourceAction" true;
            ActionRan "Build" "BuildAction" true;
            ActionRan "Copy" "CopyAction" true ] ++ notify_steps w x
        else
          [ ActionRan "Source" "SourceAction" true;
            ActionRan "Build" "BuildAction" true;
            ActionRan "Copy" "CopyAction" false ] ++ notify_steps w x
      else
        [ ActionRan "Source" "SourceAction" true;
          ActionRan "Build" "BuildAction" false ] ++ notify_steps w x
    else
      [ ActionRan "Source" "SourceAction" false ] ++ notify_steps w x.
Proof.
  unfold history, notify_steps, Stages. cbn -[notify_run].
  destruct (action_result w "SourceAction"); cbn -[notify_run].
  - destruct (action_result w "BuildAction"); cbn -[notify_run].
    + destruct (action_result w "CopyAction"); cbn -[notify_run];
        rewrite ?app_nil_r; reflexivity.
    + rewrite ?app_nil_r. reflexivity.
  - rewrite ?app_nil_r. reflexivity.
Qed.

(** Whether the run succeeded, along the same shapes. *)
Lemma succeeded_cases (w : Surroundings) (x : PipelineExecution) :
  succeeded w x =
    action_result w "SourceAction" && action_result w "BuildAction"
    && action_result w "CopyAction"
    && job_succeeded (NotifyLambda.trace_of (notify_run w x)).
Proof.
  unfold succeeded, Stages. cbn -[notify_run].
  destruct (action_result w "SourceAction"); cbn -[notify_run]; [|reflexivity].
  destruct (action_result w "BuildAction"); cbn -[notify_run]; [|reflexivity].
  destruct (action_result w "CopyAction"); cbn -[notify_run]; reflexivity.
Qed.

Lemma not_in_bridge_calls stage action ok t :
  ~ In (ActionRan stage action ok) (map BridgeCall t).
Proof.
  induction t as [|e t IH]; cbn; [tauto|].
  intros [H|H]; [discriminate H|exact (IH H)].
Qed.

Lemma bridge_trace_calls t : bridge_trace (map BridgeCall t) = t.
Proof. induction t as [|e t IH]; cbn; [reflexivity|]. now rewrite IH. Qed.

Lemma ran_bridge_calls t action : ran (map BridgeCall t) action = 0%nat.
Proof. unfold ran. induction t as [|e t IH]; cbn; [reflexivity|exact IH]. Qed.

Lemma lambda_environ_url (refs : gmap string string) (url : string) :
  refs !! WaitHandle = Some url ->
  lambda_environ refs NotifyLambdaFunction !! "waitHandleUrl" = Some url.
Proof.
  intros H. unfold lambda_environ, NotifyLambdaFunction. cbn.
  rewrite H. apply lookup_insert_eq.
Qed.

Lemma ran_notify_steps (w : Surroundings) (x : PipelineExecution) :
  ran (notify_steps w x) "InvokeAction" = 1%nat
  /\ ran (notify_steps w x) "CopyAction" = 0%nat.
Proof.
  unfold notify_steps.
  split.
  - change (S (ran (map BridgeCall (NotifyLambda.trace_of (notify_run w x)))
                 "InvokeAction") = 1%nat).
    rewrite ran_bridge_calls. reflexivity.
  - change (ran (map BridgeCall (NotifyLambda.trace_of (notify_run w x)))
              "CopyAction" = 0%nat).
    apply ran_bridge_calls.
Qed.

Lemma bridge_trace_notify_steps (w : Surroundings) (x : PipelineExecution) :
  bridge_trace (notify_steps w x) = NotifyLambda.trace_of (notify_run w x).
Proof. unfold notify_steps. cbn. apply bridge_trace_calls. Qed.

Lemma not_in_notify_steps (w : Surroundings) (x : PipelineExecution)
    (stage action : string) (ok : bool) :
  action <> "InvokeAction" ->
  ~ In (ActionRan stage action ok) (notify_steps w x).
Proof.
  intros Hne [H|H].
  - injection H as _ Ha _. congruence.
  - exact (not_in_bridge_calls _ _ _ _ H).
Qed.

(** The signals of a run are those of its one invocation of the bridge. *)
Lemma signals_sent_history (w : Surroundings) (x : PipelineExecution) :
  signals_sent (history w x) =
    NotifyLambda.signals (NotifyLambda.trace_of (notify_run w x)).
Proof.
  rewrite history_cases. unfold signals_sent.
  destruct (action_result w "SourceAction");
    [destruct (action_result w "BuildAction");
       [destruct (action_result w "CopyAction")|]|];
    cbn [app bridge_trace]; rewrite bridge_trace_notify_steps; reflexivity.
Qed.

(** A run whose Build stage failed. *)
Lemma history_after_build_failure (w : Surroundings) (x : PipelineExecution) :
  build_failed (history w x) ->
  history w x =
    [ ActionRan "Source" "SourceAction" true;
      ActionRan "Build" "BuildAction" false ] ++ notify_steps w x
  /\ action_result w "BuildAction" = false.
Proof.
  unfold build_failed. rewrite history_cases.
  destruct (action_result w "SourceAction").
  - destruct (action_result w "BuildAction"); [|split; reflexivity].
    intros Hb. exfalso.
    destruct (action_result w "CopyAction");
      apply in_app_or in Hb as [Hb|Hb];
      try (revert Hb; apply not_in_notify_steps; discriminate);
      destruct Hb as [Hb|[Hb|[Hb|[]]]]; discriminate Hb.
  - intros Hb. exfalso.
    apply in_app_or in Hb as [Hb|Hb].
    + destruct Hb as [Hb|[]]; discriminate Hb.
    + revert Hb. apply not_in_notify_steps. discriminate.
Qed.

(** The signal of a run, when the deployment has the handle. *)
Lemma notify_run_signals (w : Surroundings) (x : PipelineExecution) (url : string) :
  refs w !! WaitHandle = Some url ->
  NotifyLambda.signals (NotifyLambda.trace_of (notify_run w x)) =
    [NotifyLambda.signal_request url (VStr (job_handle x))].
Proof.
  intros Hurl. unfold notify_run.
  rewrite (handler_run (net w) (lambda_environ (refs w) NotifyLambdaFunction)
             (invoke_event x) VNone (VStr (job_handle x)) url
             eq_refl (lambda_environ_url _ _ Hurl)).
  cbv zeta. unfold NotifyLambda.except_branch.
  destruct (NotifyLambda.urlopen (net w) _);
    [|destruct (NotifyLambda.put_job_success_result (net w) _)]; reflexivity.
Qed.

(** C1, as stated, fails: when the build exits non-zero Publish is skipped
    and Notify runs once, but the signal it sends carries Status "SUCCESS";
    no signal with Status "FAILURE" is sent. *)
Lemma notifies_failure_fails :
  ~ notifies_failure (history Runs.build_fails Runs.x42).
Proof.
  intros H.
  assert (build_failed (history Runs.build_fails Runs.x42)) as Hb.
  { vm_compute. right. left. reflexivity. }
  destruct (H Hb) as (_ & (req & Hin & Hst) & _).
  vm_compute in Hin. destruct Hin as [<-|[]].
  vm_compute in Hst. discriminate Hst.
Qed.

(** C1, amended.  For every execution whose Build stage fails, Publish
    (CopyAction) is skipped and the Notify action still runs exactly once;
    the run is failed.  The signal Notify sends carries Status "SUCCESS",
    as on the success path: no signal of the run has another status, and in
    a deployment with the wait handle it is the one request built from the
    handle URL and the job handle. *)
Theorem build_failure_notifies_success (w : Surroundings) (x : PipelineExecution) :
  build_failed (history w x) ->
  ran (history w x) "CopyAction" = 0%nat
  /\ ran (history w x) "InvokeAction" = 1%nat
  /\ succeeded w x = false
  /\ (forall req, In req (signals_sent (history w x)) ->
        status_field req = Some (VStr "SUCCESS"))
  /\ (forall url, refs w !! WaitHandle = Some url ->
        signals_sent (history w x) =
          [NotifyLambda.signal_request url (VStr (job_handle x))]).
Proof.
  intros Hb.
  destruct (history_after_build_failure w x Hb) as [Hh Hbuild].
  destruct (ran_notify_steps w x) as [Hinvoke Hcopy].
  split.
  { rewrite Hh. unfold ran in *. rewrite List.filter_app, List.length_app.
    rewrite Hcopy. reflexivity. }
  split.
  { rewrite Hh. unfold ran in *. rewrite List.filter_app, List.length_app.
    rewrite Hinvoke. reflexivity. }
  split.
  { rewrite succeeded_cases, Hbuild.
    destruct (action_result w "SourceAction"); reflexivity. }
  rewrite signals_sent_history. split.
  - intros req Hin. unfold notify_run in Hin.
    destruct (handler_signals _ _ _ _ _ Hin) as (job_id & url & _ & _ & ->).
    reflexivity.
  - intros url Hurl. apply notify_run_signals. assumption.
Qed.

Lemma build_failure_notifies_success_witness :
  ran (history Runs.build_fails Runs.x42) "InvokeAction" = 1%nat
  /\ signals_sent (history Runs.build_fails Runs.x42) =
       [NotifyLambda.signal_request Runs.handle_url (VStr "job-42")].
Proof.
  assert (build_failed (history Runs.build_fails Runs.x42)) as Hb.
  { vm_compute. right. left. reflexivity. }
  destruct (build_failure_notifies_success Runs.build_fails Runs.x42 Hb)
    as (_ & Hran & _ & _ & Hsig).
  split; [assumption|].
  apply Hsig. reflexivity.
Defined.

End Pipeline.

Section SuccessPath.
Import Template Orchestrator.

Lemma job_id_of_invoke_event (x : PipelineExecution) :
  NotifyLambda.job_id_of (invoke_event x) = Some (VStr (job_handle x)).
Proof. reflexivity. Qed.

(** A run in which Build and Publish succeeded has the long shape. *)
Lemma history_after_publish (w : Surroundings) (x : PipelineExecution) :
  build_and_publish_succeeded (history w x) ->
  history w x =
    [ ActionRan "Source" "SourceAction" true;
      ActionRan "Build" "BuildAction" true;
      ActionRan "Copy" "CopyAction" true ] ++ notify_steps w x.
Proof.
  intros [_ Hc]. rewrite history_cases in Hc |- *.
  destruct (action_result w "SourceAction");
    [destruct (action_result w "BuildAction");
       [destruct (action_result w "CopyAction"); [reflexivity|]|]|];
    exfalso; apply in_app_or in Hc as [Hc|Hc];
    try (revert Hc; apply not_in_notify_steps; discriminate);
    repeat (destruct Hc as [Hc|Hc]; [discriminate Hc|]); destruct Hc.
Qed.

(** The signal of the bridge, as the gate reads it. *)
Lemma gate_reads_signal (g : Gate.gate) (job : string) :
  Gate.signal_of_request g (NotifyLambda.signal_request (Gate.handle g) (VStr job)) =
    Some (Gate.mkSignal Gate.SUCCESS "Compilation Succeeded" job "Compilation Succeeded").
Proof.
  unfold Gate.signal_of_request, NotifyLambda.signal_request. cbn.
  rewrite String.eqb_refl. reflexivity.
Qed.

Lemma provision_fresh (wc : WaitConditionProperties) (url : string) (g : Gate.gate) :
  Gate.provision wc url = Some g ->
  Gate.handle g = url /\ Gate.current g = Gate.waiting /\ Gate.elapsed g = 0%nat
  /\ parse_decimal (Timeout wc) = Some (Gate.timeout g).
Proof.
  unfold Gate.provision.
  destruct (Count wc =? 1)%nat; [|discriminate].
  destruct (parse_decimal (Timeout wc)) as [t|]; [|discriminate].
  intros [= <-]. repeat split.
Qed.

(** C2.  For every execution in which Build and Publish succeeded, the
    Notify action runs once and sends one signal; its Status is "SUCCESS"
    and its UniqueId is the job handle of the execution.  When the handle
    URL answers the PUT with a success response, the gate provisioned from
    the template's wait condition records exactly that signal. *)
Theorem success_signal
    (w : Surroundings) (x : PipelineExecution) (url : string) :
  refs w !! WaitHandle = Some url ->
  build_and_publish_succeeded (history w x) ->
  let h := history w x in
  let req := NotifyLambda.signal_request url (VStr (job_handle x)) in
  ran h "InvokeAction" = 1%nat
  /\ signals_sent h = [req]
  /\ status_field req = Some (VStr "SUCCESS")
  /\ unique_id_field req = Some (VStr (job_handle x))
  /\ (NotifyLambda.urlopen (net w) req = None ->
      forall g, Gate.provision WaitCondition url = Some g ->
        Gate.current (Gate.run g (gate_inputs g h)) =
          Gate.fired (Gate.mkSignal Gate.SUCCESS "Compilation Succeeded"
                        (job_handle x) "Compilation Succeeded")).
Proof.
  intros Hurl Hok h req. subst h req.
  pose proof (handler_run (net w) (lambda_environ (refs w) NotifyLambdaFunction)
                (invoke_event x) VNone (VStr (job_handle x)) url
                (job_id_of_invoke_event x) (lambda_environ_url _ _ Hurl)) as Hrun.
  fold (notify_run w x) in Hrun. cbv zeta in Hrun.
  set (req := NotifyLambda.signal_request url (VStr (job_handle x))) in *.
  destruct (ran_notify_steps w x) as [Hinvoke _].
  split.
  { rewrite (history_after_publish w x Hok).
    unfold ran in *. rewrite List.filter_app, List.length_app.
    rewrite Hinvoke. reflexivity. }
  split.
  { rewrite signals_sent_history. apply notify_run_signals. assumption. }
  split; [reflexivity|]. split; [reflexivity|].
  intros Hdel g Hg.
  destruct (provision_fresh _ _ _ Hg) as (Hhandle & Hwait & _).
  assert (gate_inputs g (history w x)
          = [Gate.Signal (Gate.mkSignal Gate.SUCCESS "Compilation Succeeded"
                            (job_handle x) "Compilation Succeeded")]) as ->.
  { rewrite (history_after_publish w x Hok).
    unfold gate_inputs, signals_delivered. cbn [app bridge_trace].
    rewrite bridge_trace_notify_steps, Hrun, Hdel.
    unfold NotifyLambda.except_branch.
    assert (Gate.signal_of_request g req = Some
              (Gate.mkSignal Gate.SUCCESS "Compilation Succeeded"
                 (job_handle x) "Compilation Succeeded")) as Hread.
    { subst req. rewrite <- Hhandle. apply gate_reads_signal. }
    destruct (NotifyLambda.put_job_success_result (net w) _) as [e|]; cbn;
      rewrite Hread; cbn.
    - destruct (NotifyLambda.put_job_failure_result (net w) _ _); reflexivity.
    - reflexivity. }
  unfold Gate.run. cbn. rewrite Hwait. reflexivity.
Qed.

Lemma success_signal_witness :
  signals_sent (history Runs.all_green Runs.x42) =
    [NotifyLambda.signal_request Runs.handle_url (VStr "job-42")]
  /\ unique_id_field (NotifyLambda.signal_request Runs.handle_url (VStr "job-42")) =
       Some (VStr "job-42").
Proof.
  assert (build_and_publish_succeeded (history Runs.all_green Runs.x42)) as Hok.
  { vm_compute. split; [right; left|right; right; left]; reflexivity. }
  destruct (success_signal Runs.all_green Runs.x42 Runs.handle_url eq_refl Hok)
    as (_ & Hsent & _ & Hid & _).
  split; assumption.
Defined.

(** No execution sends a signal with a status other than "SUCCESS". *)
Lemma every_signal_is_success (w : Surroundings) (x : PipelineExecution)
    (req : NotifyLambda.Request) :
  In req (signals_sent (history w x)) ->
  status_field req = Some (VStr "SUCCESS").
Proof.
  rewrite signals_sent_history. unfold notify_run. intros Hin.
  destruct (handler_signals _ _ _ _ _ Hin) as (job_id & url & _ & _ & ->).
  reflexivity.
Qed.

End SuccessPath.

(** ** Properties of the Completion Gate *)

Section GateProperties.
Import Gate.

Example timeout_parses : parse_decimal (Template.Timeout Template.WaitCondition) = Some 300%nat.
Proof. reflexivity. Qed.

Lemma step_terminal (g : gate) (i : input) :
  current g <> waiting -> current (step g i) = current g.
Proof.
  intros H. destruct i; cbn; destruct (current g) eqn:E; try reflexivity; congruence.
Qed.

(** A terminal state is final, whatever arrives afterwards. *)
Lemma run_terminal (inputs : list input) :
  forall g, current g <> waiting -> current (run g inputs) = current g.
Proof.
  induction inputs as [|i inputs IH]; intros g H; [reflexivity|].
  cbn. unfold run in IH. rewrite IH; rewrite step_terminal; auto.
Qed.

(** A signal leaves a gate that is not waiting as it is. *)
Lemma signal_no_op (g : gate) (s : signal) :
  current g <> waiting -> step g (Signal s) = g.
Proof. intros H. cbn. destruct (current g) eqn:E; try reflexivity; congruence. Qed.

Lemma signals_no_op (later : list signal) :
  forall g, current g <> waiting -> run g (map Signal later) = g.
Proof.
  induction later as [|s later IH]; intros g H; [reflexivity|].
  change (run (step g (Signal s)) (map Signal later) = g).
  rewrite signal_no_op by assumption. apply IH. assumption.
Qed.

(** C5.  For every waiting gate and every sequence of two or more signals,
    of any status and in any order, the gate ends in the state the first
    signal alone puts it in: that signal is recorded, the terminal status
    is its status, and the later ones change nothing. *)
Theorem first_signal_wins (g : gate) (sigs : list signal) (first : signal) :
  current g = waiting ->
  (2 <= length sigs)%nat ->
  hd_error sigs = Some first ->
  run g (map Signal sigs) = run g [Signal first]
  /\ current (run g (map Signal sigs)) = fired first
  /\ terminal_status (run g (map Signal sigs)) = Some (Status first).
Proof.
  intros Hw _ Hhd. destruct sigs as [|s later]; [discriminate Hhd|].
  injection Hhd as ->.
  assert (run g (map Signal (first :: later)) = run g [Signal first]) as Heq.
  { change (run (step g (Signal first)) (map Signal later) = step g (Signal first)).
    apply signals_no_op. cbn. rewrite Hw. discriminate. }
  rewrite Heq. unfold terminal_status. cbn. rewrite Hw. cbn. auto.
Qed.

Lemma first_signal_wins_witness :
  terminal_status
    (run Runs.sample_gate (map Signal [Runs.sample_failure; Runs.sample_success; Runs.sample_success])) =
  Some FAILURE.
Proof.
  apply (first_signal_wins Runs.sample_gate
           [Runs.sample_failure; Runs.sample_success; Runs.sample_success] Runs.sample_failure).
  - reflexivity.
  - cbn. lia.
  - reflexivity.
Defined.

(** Time passing over a waiting gate. *)
Lemma run_ticks (n : nat) :
  forall g, current g = waiting ->
    current (run g (List.repeat Tick n)) =
      if (0 <? n)%nat && (timeout g <=? elapsed g + n)%nat then expired else waiting.
Proof.
  induction n as [|n IH]; intros g Hw.
  - cbn. exact Hw.
  - change (current (run (step g Tick) (List.repeat Tick n)) =
              if (0 <? S n)%nat && (timeout g <=? elapsed g + S n)%nat
              then expired else waiting).
    assert (step g Tick =
              mkGate (handle g) (timeout g) (S (elapsed g))
                (if (timeout g <=? S (elapsed g))%nat then expired else waiting)) as Hs
      by (cbn; rewrite Hw; reflexivity).
    destruct (timeout g <=? S (elapsed g))%nat eqn:Hle.
    + rewrite run_terminal by (rewrite Hs; discriminate).
      rewrite Hs. cbn.
      apply Nat.leb_le in Hle.
      assert ((timeout g <=? elapsed g + S n)%nat = true) as ->
        by (apply Nat.leb_le; lia).
      reflexivity.
    + rewrite IH by (rewrite Hs; reflexivity).
      rewrite Hs. cbn [timeout elapsed].
      apply Nat.leb_gt in Hle.
      destruct n as [|n].
      * assert ((timeout g <=? elapsed g + 1)%nat = false) as ->
          by (apply Nat.leb_gt; lia).
        reflexivity.
      * replace (S (elapsed g) + S n)%nat with (elapsed g + S (S n))%nat by lia.
        reflexivity.
Qed.

(** C6.  The gate provisioned from the template's wait condition has a
    timeout of 300 time units; when these pass without a signal, the gate
    is expired, which the waiting caller sees as a failure, and nothing
    that arrives afterwards brings it back to waiting. *)
Theorem unsignalled_gate_expires (url : string) (g : gate) (n : nat) (later : list input) :
  provision Template.WaitCondition url = Some g ->
  (300 <= n)%nat ->
  timeout g = 300%nat
  /\ current (run g (List.repeat Tick n ++ later)) = expired
  /\ terminal_status (run g (List.repeat Tick n ++ later)) = Some FAILURE
  /\ current (run g (List.repeat Tick n ++ later)) <> waiting.
Proof.
  intros Hg Hn.
  assert (g = mkGate url 300 0 waiting) as ->.
  { unfold provision in Hg. rewrite timeout_parses in Hg. cbn in Hg.
    injection Hg as <-. reflexivity. }
  assert (current (run (mkGate url 300 0 waiting) (List.repeat Tick n ++ later)) = expired)
    as Hexp.
  { unfold run. rewrite fold_left_app. fold (run (mkGate url 300 0 waiting) (List.repeat Tick n)).
    pose proof (run_ticks n (mkGate url 300 0 waiting) eq_refl) as Ht.
    cbn [timeout elapsed] in Ht.
    assert ((0 <? n)%nat = true) as H0 by (apply Nat.ltb_lt; lia).
    assert ((300 <=? 0 + n)%nat = true) as H1 by (apply Nat.leb_le; lia).
    rewrite H0, H1 in Ht. cbn in Ht.
    fold (run (run (mkGate url 300 0 waiting) (List.repeat Tick n)) later).
    rewrite run_terminal; rewrite Ht; [reflexivity|discriminate]. }
  split; [reflexivity|]. split; [exact Hexp|]. split.
  - unfold terminal_status. rewrite Hexp. reflexivity.
  - rewrite Hexp. discriminate.
Qed.

Lemma unsignalled_gate_expires_witness :
  current (run Runs.sample_gate (List.repeat Tick 300 ++ [Signal Runs.sample_success])) = expired.
Proof.
  apply (unsignalled_gate_expires Runs.handle_url Runs.sample_gate 300 [Signal Runs.sample_success]).
  - reflexivity.
  - lia.
Defined.

(** One unit of time earlier the gate is still waiting. *)
Example gate_waits_until_timeout :
  current (run Runs.sample_gate (List.repeat Tick 299)) = waiting.
Proof. vm_compute. reflexivity. Qed.

End GateProperties.

(** ** Properties of the Source Intake *)

Section IntakeProperties.
Import Template Intake.

Variable hmac : string -> string -> string.

Example match_pattern_expands (refs : gmap string string) :
  expand (configuration_value refs SourceAction) "refs/heads/{Branch}" None =
    "refs/heads/master".
Proof. reflexivity. Qed.

Example json_path_ref :
  json_path "$.ref" (VDict [("ref", VStr "refs/heads/master"); ("before", VStr "0")]) =
    Some (VStr "refs/heads/master").
Proof. reflexivity. Qed.

Lemma json_path_ref_spec (v : value) (s : string) :
  json_path "$.ref" v = Some (VStr s) <->
  exists d, v = VDict d /\ assoc "ref" d = Some (VStr s).
Proof.
  unfold json_path. change (split_dots "$.ref" "") with ["$"; "ref"].
  cbn [select]. split.
  - destruct v as [| | | | |d]; try discriminate.
    destruct (assoc "ref" d) as [v'|] eqn:Hd; [|discriminate].
    intros [= ->]. exists d. split; [reflexivity|assumption].
  - intros (d & -> & Hd). rewrite Hd. reflexivity.
Qed.

(** When the dispatch starts an execution. *)
Lemma starts_execution_iff (refs : gmap string string) (n : Notification) :
  starts_execution hmac refs Webhook Stages n = true <->
  (exists secret,
      refs !! "GithubOauthToken" = Some secret
      /\ signature n = hmac secret (body n))
  /\ (exists d, payload n = VDict d /\ assoc "ref" d = Some (VStr "refs/heads/master")).
Proof.
  unfold starts_execution, authentic. cbn [Webhook Authentication SecretToken
    TargetAction Filters resolve forallb].
  change (find_action Stages "SourceAction") with (Some SourceAction).
  change ("GITHUB_HMAC" =? "GITHUB_HMAC")%string with true.
  cbn [andb]. unfold filter_matches. cbn [JsonPath MatchEquals].
  rewrite match_pattern_expands.
  split.
  - destruct (refs !! "GithubOauthToken") as [secret|] eqn:Hs; [|discriminate].
    intros H. apply andb_prop in H as [Hsig Hf]. rewrite andb_true_r in Hf.
    apply String.eqb_eq in Hsig. split.
    + exists secret. split; [reflexivity|assumption].
    + destruct (json_path "$.ref" (payload n)) as [v|] eqn:Hp; [|discriminate].
      destruct v as [| | |s| |]; try discriminate.
      apply String.eqb_eq in Hf. subst s.
      apply json_path_ref_spec. assumption.
  - intros [(secret & Hs & Hsig) Href].
    rewrite Hs. apply json_path_ref_spec in Href. rewrite Href.
    rewrite Hsig. rewrite !String.eqb_refl. reflexivity.
Qed.

(** C7.  A notification starts an execution only if its signature is the
    HMAC of its body under the configured secret (the value of the
    parameter GithubOauthToken) and its [ref] is [refs/heads/master], the
    branch configured on the source action; these two checks are also
    enough.  A notification with another signature, or with another ref,
    starts nothing. *)
Theorem webhook_starts_execution (refs : gmap string string) (n : Notification) :
  (starts_execution hmac refs Webhook Stages n = true <->
   (exists secret,
       refs !! "GithubOauthToken" = Some secret
       /\ signature n = hmac secret (body n))
   /\ (exists d, payload n = VDict d
                 /\ assoc "ref" d = Some (VStr "refs/heads/master")))
  /\ (forall secret,
        refs !! "GithubOauthToken" = Some secret ->
        signature n <> hmac secret (body n) ->
        starts_execution hmac refs Webhook Stages n = false)
  /\ (forall d,
        payload n = VDict d ->
        assoc "ref" d <> Some (VStr "refs/heads/master") ->
        starts_execution hmac refs Webhook Stages n = false).
Proof.
  split; [apply starts_execution_iff|]. split.
  - intros secret Hs Hbad. apply not_true_is_false. intros H.
    apply starts_execution_iff in H as [(secret' & Hs' & Hsig) _].
    rewrite Hs in Hs'. injection Hs' as <-. contradiction.
  - intros d Hp Hother. apply not_true_is_false. intros H.
    apply starts_execution_iff in H as [_ (d' & Hp' & Href)].
    rewrite Hp in Hp'. injection Hp' as <-. contradiction.
Qed.

(** C10.  In every deployment the secret that authenticates webhook
    notifications and the OAuth token of the source action are the same
    value: both are the parameter GithubOauthToken, which is also the one
    token the stack hands to the build pipeline construct. *)
Theorem secret_is_oauth_token (refs : gmap string string) :
  webhook_secret refs = source_token refs
  /\ webhook_secret refs = refs !! "GithubOauthToken"
  /\ SecretToken Webhook = Ref (Stack.id Stack.GithubOauthToken)
  /\ assoc "OAuthToken" (Configuration SourceAction) =
       Some (Ref (Stack.id Stack.GithubOauthToken))
  /\ assoc "oauthToken" Stack.consumerBuild_props =
       Some (Stack.SecretParameter Stack.GithubOauthToken).
Proof. repeat split. Qed.

End IntakeProperties.

Section IntakeExamples.
Import Template Intake.

Example push_to_master_starts :
  starts_execution Runs.toy_hmac Runs.refs0 Webhook Stages Runs.push_to_master = true.
Proof. vm_compute. reflexivity. Qed.

Example push_to_feature_ignored :
  starts_execution Runs.toy_hmac Runs.refs0 Webhook Stages Runs.push_to_feature = false.
Proof. vm_compute. reflexivity. Qed.

Example forged_push_rejected :
  starts_execution Runs.toy_hmac Runs.refs0 Webhook Stages Runs.forged_push = false.
Proof. vm_compute. reflexivity. Qed.

Lemma webhook_starts_execution_witness :
  starts_execution Runs.toy_hmac Runs.refs0 Webhook Stages Runs.forged_push = false
  /\ starts_execution Runs.toy_hmac Runs.refs0 Webhook Stages Runs.push_to_feature = false.
Proof.
  destruct (webhook_starts_execution Runs.toy_hmac Runs.refs0 Runs.forged_push)
    as (_ & Hbad & _).
  destruct (webhook_starts_execution Runs.toy_hmac Runs.refs0 Runs.push_to_feature)
    as (_ & _ & Hother).
  split.
  - apply (Hbad "s3cr3t"); [reflexivity|].
    vm_compute. intros H. discriminate H.
  - apply (Hother [("ref", VStr "refs/heads/feature-x")]); [reflexivity|].
    intros H. discriminate H.
Defined.

End IntakeExamples.

(** ** The configuration surface *)

Section Configuration.
Import Config.

(** C8, as stated, fails: the repository owner is the stack parameter
    GithubUser, whose default is "aws-samples". *)
Lemma all_required_but_branch_fails : ~ all_required_but_branch.
Proof.
  intros [H _]. destruct (H repoOwner) as [_ Hd]; [discriminate|].
  vm_compute in Hd. discriminate Hd.
Qed.

(** C8, amended.  The stack passes the owner, the repository name, the
    secret and the artifact prefix to the core.  The secret (parameter
    GithubOauthToken) is the only one that must be given at deployment; the
    owner (parameter GithubUser) defaults to "aws-samples"; the repository
    name and the artifact prefix are literals of the stack.  Branch, build
    command and gate timeout are not passed by the stack: the template
    carries "master", "mvn clean package -B" and "300". *)
Theorem configuration_surface :
  (forall p, supplied p = true <->
             In p [repoOwner; repoName; sharedSecret; artifactNamePattern])
  /\ (forall p, required_at_deployment p = true <-> p = sharedSecret)
  /\ default_value sharedSecret = None
  /\ default_value repoOwner = Some "aws-samples"
  /\ stack_setting repoName =
       Some (Stack.Literal "amazon-kinesis-analytics-beam-taxi-consumer")
  /\ stack_setting artifactNamePattern = Some (Stack.Literal "beam-taxi-count")
  /\ default_value branch = Some "master"
  /\ default_value buildCommand = Some "mvn clean package -B"
  /\ default_value gateTimeout = Some "300".
Proof.
  split.
  { intros p. destruct p; cbn; split; intros H; try discriminate H; try reflexivity;
      intuition discriminate. }
  split.
  { intros p. destruct p; cbn; split; intros H; try discriminate H; reflexivity. }
  repeat split.
Qed.

End Configuration.

(** ** Further properties of the Notifier Bridge *)

Section BridgeEdges.
Import NotifyLambda BridgeCalls.

Variable net : Network.
Variable environ : gmap string string.

(** The whole run for an event that carries a job id when the environment
    has no handle URL. *)
Lemma handler_run_no_url (event context : value) (job_id : value) :
  job_id_of event = Some job_id ->
  environ !! "waitHandleUrl" = None ->
  handler net environ event context = ([], inl (KeyError "waitHandleUrl")).
Proof.
  intros Hjob Hurl. unfold job_id_of in Hjob.
  destruct event as [| | | | |d]; try discriminate.
  destruct (assoc "CodePipeline.job" d) as [j|] eqn:Hd; try discriminate.
  destruct j as [| | | | |j]; try discriminate.
  unfold handler, mbind, M_bind, bind, subscript, environ_get.
  rewrite Hd. cbn. rewrite Hjob. cbn. rewrite Hurl. reflexivity.
Qed.

(** The whole run for an event that carries no job id. *)
Lemma handler_run_no_job (event context : value) :
  job_id_of event = None ->
  exists e,
    handler net environ event context = ([], inl e)
    /\ (e = KeyError "CodePipeline.job" \/ e = KeyError "id" \/ exists m, e = TypeError m).
Proof.
  intros Hjob. unfold job_id_of in Hjob.
  unfold handler, mbind, M_bind, bind, subscript, environ_get.
  destruct event as [| | | | |d]; try (eexists; split; [reflexivity|eauto]).
  destruct (assoc "CodePipeline.job" d) as [j|]; [|eexists; split; [reflexivity|eauto]].
  destruct j as [| | | | |j]; try (eexists; split; [reflexivity|eauto]).
  cbn. rewrite Hjob. eexists; split; [reflexivity|eauto].
Qed.

End BridgeEdges.

Section BridgeEdgesClosed.
Import NotifyLambda BridgeCalls.

(** X1.  An event without a job id (no key 'CodePipeline.job', no key 'id'
    under it, or something that is no dictionary in either place) makes the
    handler raise a [KeyError] or a [TypeError] before it calls anything:
    neither the gate nor the Orchestrator hears of the invocation. *)
Theorem malformed_event_raises_before_any_call
    (net : Network) (environ : gmap string string) (event context : value) :
  job_id_of event = None ->
  exists e,
    handler net environ event context = ([], inl e)
    /\ (e = KeyError "CodePipeline.job" \/ e = KeyError "id" \/ exists m, e = TypeError m).
Proof.
  intros Hjob. unfold job_id_of in Hjob.
  unfold handler, mbind, M_bind, bind, subscript, environ_get.
  destruct event as [| | | | |d]; try (eexists; split; [reflexivity|eauto]).
  destruct (assoc "CodePipeline.job" d) as [j|]; [|eexists; split; [reflexivity|eauto]].
  destruct j as [| | | | |j]; try (eexists; split; [reflexivity|eauto]).
  cbn. rewrite Hjob. eexists; split; [reflexivity|eauto].
Qed.

Lemma malformed_event_raises_before_any_call_witness :
  exists e,
    handler Samples.net_ok Samples.environ0
      (VDict [("CodePipeline.job", VStr "job-42")]) VNone = ([], inl e)
    /\ (e = KeyError "CodePipeline.job" \/ e = KeyError "id" \/ exists m, e = TypeError m).
Proof.
  apply malformed_event_raises_before_any_call. reflexivity.
Defined.

(** X2.  Without [waitHandleUrl] in the environment the handler raises
    [KeyError('waitHandleUrl')] before it calls anything, also for a
    well-formed event: the job is never reported. *)
Theorem missing_handle_url_raises_before_any_call
    (net : Network) (environ : gmap string string) (event context : value)
    (job_id : value) :
  job_id_of event = Some job_id ->
  environ !! "waitHandleUrl" = None ->
  handler net environ event context = ([], inl (KeyError "waitHandleUrl")).
Proof.
  intros Hjob Hurl.
  apply (handler_run_no_url net environ event context job_id); assumption.
Qed.

Lemma missing_handle_url_raises_before_any_call_witness :
  handler Samples.net_ok ∅ Samples.event42 VNone = ([], inl (KeyError "waitHandleUrl")).
Proof.
  apply (missing_handle_url_raises_before_any_call Samples.net_ok ∅ Samples.event42
           VNone (VStr "job-42")); reflexivity.
Defined.

(** X3.  The handler reads nothing of the event but the job id, and nothing
    of the context: two invocations whose events carry the same job id run
    alike, call for call. *)
Theorem handler_reads_only_the_job_id
    (net : Network) (environ : gmap string string)
    (event1 event2 context1 context2 : value) (job_id : value) :
  job_id_of event1 = Some job_id ->
  job_id_of event2 = Some job_id ->
  handler net environ event1 context1 = handler net environ event2 context2.
Proof.
  intros H1 H2.
  destruct (environ !! "waitHandleUrl") as [url|] eqn:Hurl.
  - rewrite (handler_run net environ event1 context1 job_id url H1 Hurl).
    rewrite (handler_run net environ event2 context2 job_id url H2 Hurl).
    reflexivity.
  - rewrite (handler_run_no_url net environ event1 context1 job_id H1 Hurl).
    rewrite (handler_run_no_url net environ event2 context2 job_id H2 Hurl).
    reflexivity.
Qed.

Lemma handler_reads_only_the_job_id_witness :
  handler Samples.net_gate_down Samples.environ0 Samples.event42 VNone =
  handler Samples.net_gate_down Samples.environ0
    (VDict [ ("CodePipeline.job",
              VDict [ ("data", VDict [("status", VStr "Failed")]);
                      ("id", VStr "job-42") ]);
             ("extra", VInt 7) ])
    (VStr "context").
Proof.
  apply (handler_reads_only_the_job_id Samples.net_gate_down Samples.environ0
           _ _ _ _ (VStr "job-42")); reflexivity.
Defined.

(** X4.  The handler prints nothing when the signal and the success report
    both go through, and one line otherwise; the line is "failure: "
    followed by the text of the exception, and the same text is the message
    of the failure report that follows. *)
Theorem log_line_matches_failure_report
    (net : Network) (environ : gmap string string) (event context : value)
    (job_id : value) (url : string) :
  job_id_of event = Some job_id ->
  environ !! "waitHandleUrl" = Some url ->
  let t := trace_of (handler net environ event context) in
  (prints t = [] <->
   urlopen net (signal_request url job_id) = None
   /\ put_job_success_result net job_id = None)
  /\ (length (prints t) <= 1)%nat
  /\ (forall line, In line (prints t) ->
        exists e,
          line = "failure: " +:+ str e
          /\ In (PutJobFailureResult job_id {| message := str e; type := "JobFailed" |})
                (reports t)).
Proof.
  intros Hjob Hurl t. subst t.
  rewrite (handler_run net environ event context job_id url Hjob Hurl).
  cbv zeta. unfold except_branch, failure_details.
  destruct (urlopen net (signal_request url job_id)) as [e|].
  - cbn. split; [split; [discriminate|intros [H _]; discriminate H]|].
    split; [lia|].
    intros line [<-|[]]. exists e. split; [reflexivity|]. left. reflexivity.
  - destruct (put_job_success_result net job_id) as [e|]; cbn.
    + split; [split; [discriminate|intros [_ H]; discriminate H]|].
      split; [lia|].
      intros line [<-|[]]. exists e. split; [reflexivity|]. right. left. reflexivity.
    + split; [split; auto|]. split; [lia|]. intros line [].
Qed.

Lemma log_line_matches_failure_report_witness :
  prints (trace_of (handler Samples.net_gate_down Samples.environ0 Samples.event42 VNone))
  <> [].
Proof.
  destruct (log_line_matches_failure_report Samples.net_gate_down Samples.environ0
              Samples.event42 VNone (VStr "job-42")
              "https://cloudformation-waitcondition.example/handle" eq_refl eq_refl)
    as (Hquiet & _ & _).
  intros H. apply Hquiet in H as [H _]. vm_compute in H. discriminate H.
Defined.

(** X5.  An exception leaves the handler in three ways only: from reading
    the job id out of the event ([KeyError] or [TypeError], before any call),
    from reading [waitHandleUrl] ([KeyError], before any call), or from
    [put_job_failure_result].  The exception of a failed signal, or of a
    failed success report, is caught and becomes the message of the failure
    report; it leaves the handler in no run. *)
Theorem exceptions_that_leave_the_handler
    (net : Network) (environ : gmap string string) (event context : value)
    (e : exn) :
  result_of (handler net environ event context) = inl e ->
  (job_id_of event = None
   /\ trace_of (handler net environ event context) = []
   /\ (e = KeyError "CodePipeline.job" \/ e = KeyError "id"
       \/ exists m, e = TypeError m))
  \/ (exists job_id,
        job_id_of event = Some job_id
        /\ environ !! "waitHandleUrl" = None
        /\ trace_of (handler net environ event context) = []
        /\ e = KeyError "waitHandleUrl")
  \/ (exists job_id url cause,
        job_id_of event = Some job_id
        /\ environ !! "waitHandleUrl" = Some url
        /\ put_job_failure_result net job_id
             {| message := str cause; type := "JobFailed" |} = Some e
        /\ (urlopen net (signal_request url job_id) = Some cause
            \/ (urlopen net (signal_request url job_id) = None
                /\ put_job_success_result net job_id = Some cause))).
Proof.
  destruct (job_id_of event) as [job_id|] eqn:Hjob.
  2:{ destruct (handler_run_no_job net environ event context Hjob) as (e' & Hrun & He).
      rewrite Hrun. cbn. intros [= <-]. left. auto. }
  destruct (environ !! "waitHandleUrl") as [url|] eqn:Hurl.
  2:{ rewrite (handler_run_no_url net environ event context job_id Hjob Hurl).
      cbn. intros [= <-]. right. left. exists job_id. auto. }
  rewrite (handler_run net environ event context job_id url Hjob Hurl).
  cbv zeta. unfold except_branch, failure_details.
  intros Hres. right. right. exists job_id, url.
  destruct (urlopen net (signal_request url job_id)) as [c|] eqn:Hopen.
  - destruct (put_job_failure_result net job_id _) as [e'|] eqn:Hrep; cbn in Hres;
      [injection Hres as <-|discriminate Hres]. exists c. repeat split; auto.
  - destruct (put_job_success_result net job_id) as [c|] eqn:Hsucc; cbn in Hres.
    + destruct (put_job_failure_result net job_id _) as [e'|] eqn:Hrep; cbn in Hres;
        [injection Hres as <-|discriminate Hres]. exists c. repeat split; auto.
    + discriminate Hres.
Qed.

Lemma exceptions_that_leave_the_handler_witness :
  (job_id_of Samples.event42 = None
   /\ trace_of (handler Samples.net_orchestrator_down Samples.environ0
                  Samples.event42 VNone) = []
   /\ (Samples.client_error = KeyError "CodePipeline.job"
       \/ Samples.client_error = KeyError "id"
       \/ exists m, Samples.client_error = TypeError m))
  \/ (exists job_id,
        job_id_of Samples.event42 = Some job_id
        /\ Samples.environ0 !! "waitHandleUrl" = None
        /\ trace_of (handler Samples.net_orchestrator_down Samples.environ0
                       Samples.event42 VNone) = []
        /\ Samples.client_error = KeyError "waitHandleUrl")
  \/ (exists job_id url cause,
        job_id_of Samples.event42 = Some job_id
        /\ Samples.environ0 !! "waitHandleUrl" = Some url
        /\ put_job_failure_result Samples.net_orchestrator_down job_id
             {| message := str cause; type := "JobFailed" |} = Some Samples.client_error
        /\ (urlopen Samples.net_orchestrator_down (signal_request url job_id) = Some cause
            \/ (urlopen Samples.net_orchestrator_down (signal_request url job_id) = None
                /\ put_job_success_result Samples.net_orchestrator_down job_id
                   = Some cause))).
Proof.
  apply (exceptions_that_leave_the_handler Samples.net_orchestrator_down
           Samples.environ0 Samples.event42 VNone Samples.client_error).
  reflexivity.
Defined.

(** X6.  Every outbound call of an invocation carries the job id of the
    event, unchanged and whatever its JSON type: as [UniqueId] of the signal
    and as [jobId] of each report. *)
Theorem every_call_carries_the_job_id
    (net : Network) (environ : gmap string string) (event context : value)
    (c : call) :
  In c (outbound (trace_of (handler net environ event context))) ->
  exists job_id,
    job_id_of event = Some job_id /\ call_job_id c = Some job_id.
Proof.
  destruct (job_id_of event) as [job_id|] eqn:Hjob.
  2:{ rewrite handler_no_job by assumption. intros []. }
  destruct (environ !! "waitHandleUrl") as [url|] eqn:Hurl.
  2:{ rewrite (handler_no_url net environ event context job_id) by assumption.
      intros []. }
  rewrite (handler_run net environ event context job_id url Hjob Hurl).
  cbv zeta. unfold except_branch.
  intros Hin. exists job_id. split; [reflexivity|].
  destruct (urlopen net _); [|destruct (put_job_success_result net _)];
    cbn in Hin; repeat (destruct Hin as [<-|Hin]; [reflexivity|]); destruct Hin.
Qed.

Lemma every_call_carries_the_job_id_witness :
  exists job_id,
    job_id_of (VDict [("CodePipeline.job", VDict [("id", VInt 42)])]) = Some job_id
    /\ call_job_id (PutJobSuccessResult (VInt 42)) = Some job_id.
Proof.
  apply (every_call_carries_the_job_id Samples.net_ok Samples.environ0
           (VDict [("CodePipeline.job", VDict [("id", VInt 42)])]) VNone).
  vm_compute. right. left. reflexivity.
Defined.

End BridgeEdgesClosed.

(** ** The bridge inside the template *)

Section Wiring.
Import NotifyLambda.

(** The environment the template gives to the function holds exactly the
    variable [waitHandleUrl], bound to the value of the wait handle. *)
Lemma lambda_environ_lookup (refs : gmap string string) (key : string) :
  Orchestrator.lambda_environ refs Template.NotifyLambdaFunction !! key =
    if String.eqb key "waitHandleUrl" then refs !! Template.WaitHandle else None.
Proof.
  unfold Orchestrator.lambda_environ, Template.NotifyLambdaFunction. cbn.
  destruct (String.eqb_spec key "waitHandleUrl") as [->|Hne].
  - destruct (refs !! Template.WaitHandle) as [v|] eqn:Hv.
    + apply lookup_insert_eq.
    + apply lookup_empty.
  - destruct (refs !! Template.WaitHandle) as [v|].
    + rewrite lookup_insert_ne by congruence. apply lookup_empty.
    + apply lookup_empty.
Qed.

(** X7.  In every deployment, a signal sent by the function goes to the
    handle that the wait condition of the template waits on: the function's
    [waitHandleUrl] and the wait condition's [Handle] are the same
    reference. *)
Theorem signal_goes_to_the_wait_condition_handle
    (refs : gmap string string) (net : Network) (event context : value)
    (req : Request) :
  In req (signals (trace_of
            (handler net (Orchestrator.lambda_environ refs Template.NotifyLambdaFunction)
               event context))) ->
  Template.resolve refs (Template.Handle Template.WaitCondition) = Some (full_url req).
Proof.
  intros Hin.
  destruct (handler_signals _ _ _ _ _ Hin) as (job_id & url & _ & Hurl & ->).
  rewrite lambda_environ_lookup in Hurl. cbn in Hurl. cbn. exact Hurl.
Qed.

Lemma signal_goes_to_the_wait_condition_handle_witness :
  Template.resolve Runs.refs0 (Template.Handle Template.WaitCondition) =
    Some Runs.handle_url.
Proof.
  apply (signal_goes_to_the_wait_condition_handle Runs.refs0 Samples.net_ok
           Samples.event42 VNone
           (signal_request Runs.handle_url (VStr "job-42"))).
  vm_compute. left. reflexivity.
Defined.

End Wiring.

(** ** Properties of the stack constructor *)

Section StackConstructor.
Import CdkStack.

Example constructor_build_only :
  ids (constructs no_files build_only) =
    [ "KeyName"; "VPC"; "Bucket"; "S3Bucket"; "GithubOauthToken"; "GithubUser";
      "BeamTaxiConsumerBuildPipeline" ].
Proof. reflexivity. Qed.

Example constructor_demo_without_file :
  constructor no_files demo = (build_part, Some (ENOENT "lambda/add-approximate-arrival-time.js")).
Proof. reflexivity. Qed.

Example constructor_complete :
  ids (constructs with_lambda_source complete) =
    [ "KeyName"; "VPC"; "Bucket"; "S3Bucket"; "GithubOauthToken"; "GithubUser";
      "BeamTaxiConsumerBuildPipeline";
      "EnrichEventsLambda"; "KinesisReplayInfrastructure"; "EmrInfrastructure";
      "InputStream"; "Dashboard"; "FirehoseInfrastructure"; "FlinkInfrastructure";
      "KinesisReplayCommand"; "StartFlinkApplication" ].
Proof. reflexivity. Qed.

(** The three ways the constructor can end. *)
Lemma constructor_cases (fs : string -> option string) (props : StackProps) :
  constructor fs props =
    if wants_demo props then
      match fs lambda_source_path with
      | None => (build_part, Some (ENOENT lambda_source_path))
      | Some src =>
          if wants_complete props
          then (build_part ++ demo_part src ++ complete_part, None)
          else (build_part ++ demo_part src ++ demo_outputs, None)
      end
    else (build_part, None).
Proof.
  unfold constructor, wants_demo, wants_complete.
  destruct (truthy (demoInfrastructure props) || truthy (completeInfrastructure props));
    cbn; [|reflexivity].
  destruct (fs lambda_source_path); [|reflexivity].
  destruct (truthy (completeInfrastructure props)); reflexivity.
Qed.




(** X10.  The build part comes first in every stack, whatever the flags and
    the files: the parameters, the network, the bucket and the build
    pipeline exist before anything else is looked at, and the build pipeline
    is always the construct [BeamTaxiConsumerBuildPipeline] with the seven
    properties of the call. *)
Theorem build_part_comes_first (fs : string -> option string) (props : StackProps) :
  (exists rest, constructs fs props = build_part ++ rest)
  /\ find_construct "BeamTaxiConsumerBuildPipeline" (constructs fs props) =
       Some consumerBuild
  /\ map fst (construct_props consumerBuild) =
       [ "bucket"; "region"; "accountId"; "oauthToken"; "repo"; "owner";
         "artifactPrefix" ].
Proof.
  unfold constructs. rewrite constructor_cases.
  destruct (wants_demo props).
  - destruct (fs lambda_source_path) as [src|].
    + destruct (wants_complete props); cbn [fst]; repeat split; eauto.
    + cbn [fst]. repeat split. exists []. symmetry. apply app_nil_r.
  - cbn [fst]. repeat split. exists []. symmetry. apply app_nil_r.
Qed.

(** X11.  Only the truth value of two flags counts: [build] is never read,
    an absent flag and [false] are the same, and once
    [completeInfrastructure] is set [demoInfrastructure] makes no
    difference. *)
Theorem constructor_reads_two_truth_values
    (fs : string -> option string) (p q : StackProps) :
  (truthy (completeInfrastructure p) = truthy (completeInfrastructure q) ->
   (truthy (completeInfrastructure p) = true
    \/ truthy (demoInfrastructure p) = truthy (demoInfrastructure q)) ->
   constructor fs p = constructor fs q).
Proof.
  intros Hc Hd. rewrite !constructor_cases. unfold wants_demo, wants_complete.
  rewrite <- Hc.
  destruct (truthy (completeInfrastructure p)).
  - rewrite !orb_true_r. reflexivity.
  - destruct Hd as [Hd|Hd]; [discriminate Hd|]. rewrite <- Hd. reflexivity.
Qed.

Lemma constructor_reads_two_truth_values_witness :
  constructor with_lambda_source (mkStackProps (Some true) (Some true) (Some true)) =
  constructor with_lambda_source (mkStackProps None (Some false) (Some true)).
Proof.
  apply constructor_reads_two_truth_values.
  - reflexivity.
  - left. reflexivity.
Defined.

(** X12.  Constructs wait for the build exactly in a stack built with
    [completeInfrastructure]: there the delivery stream and the Flink
    application are handed [consumerBuild.buildSuccessWaitCondition], in
    this order; in the build-only and the demo stack nothing is. *)
Theorem waiting_constructs (fs : string -> option string) (props : StackProps) :
  snd (constructor fs props) = None ->
  ids (List.filter waits_for_build (constructs fs props)) =
    if truthy (completeInfrastructure props)
    then [ "FirehoseInfrastructure"; "FlinkInfrastructure" ]
    else [].
Proof.
  unfold constructs. rewrite constructor_cases. unfold wants_demo, wants_complete.
  destruct (truthy (completeInfrastructure props)).
  - rewrite orb_true_r.
    destruct (fs lambda_source_path) as [src|]; [reflexivity|discriminate].
  - rewrite orb_false_r.
    destruct (truthy (demoInfrastructure props)); [|reflexivity].
    destruct (fs lambda_source_path) as [src|]; [reflexivity|discriminate].
Qed.

Lemma waiting_constructs_witness :
  ids (List.filter waits_for_build (constructs with_lambda_source demo)) = [].
Proof.
  apply (waiting_constructs with_lambda_source demo). reflexivity.
Defined.

(** X13.  Setting more flags never takes a construct away: every id of the
    stack built with [p] is an id of the stack built with [q] when [q] asks
    for at least what [p] asks for and its constructor succeeds. *)
Theorem more_flags_keep_ids (fs : string -> option string) (p q : StackProps) :
  (wants_demo p = true -> wants_demo q = true) ->
  (wants_complete p = true -> wants_complete q = true) ->
  snd (constructor fs q) = None ->
  forall id, In id (ids (constructs fs p)) -> In id (ids (constructs fs q)).
Proof.
  unfold constructs. rewrite !constructor_cases.
  intros Hd Hc.
  destruct (wants_demo p) eqn:Hdp.
  - rewrite (Hd eq_refl).
    destruct (fs lambda_source_path) as [src|]; [|discriminate].
    destruct (wants_complete p) eqn:Hcp.
    + rewrite (Hc eq_refl). intros _ id H. exact H.
    + destruct (wants_complete q); intros _ id H; [|exact H].
      cbn in H |- *. intuition auto.
  - destruct (wants_demo q).
    + destruct (fs lambda_source_path) as [src|]; [|discriminate].
      destruct (wants_complete q); intros _ id H; cbn in H |- *; intuition auto.
    + intros _ id H. exact H.
Qed.

Lemma more_flags_keep_ids_witness :
  In "EnrichEventsLambda" (ids (constructs with_lambda_source complete)).
Proof.
  apply (more_flags_keep_ids with_lambda_source demo complete).
  - reflexivity.
  - intros H. vm_compute in H. discriminate H.
  - reflexivity.
  - vm_compute. do 7 right. left. reflexivity.
Defined.

End StackConstructor.
